(** * Weather lookup service: cache-aside lookups, history jobs, HTTP views

    A shallow embedding of the [weather] application
    ([services.py], [tasks.py], [models.py], [serializers.py], [views.py])
    and the properties of its lookup flow.

    Conventions of the embedding.
    - A Python [str] is the list of its Unicode code points ([pystr]);
      literals of the source are written [py "..."] and decoded from the
      UTF-8 text of this file.
    - JSON payloads and Python dictionaries are values of [pyval]; a [dict]
      is a finite map from [str] keys.
    - A Python computation that may raise is a [result]; a computation that
      also reads or changes the process environment (settings, clock, cache,
      network, task broker, database) is a state transformer over [World].
    - Library functions whose definition lies outside the application
      (case mapping of [str], the built-in conversions, [isoformat()], what
      the columns of the configured database hold, and the rendering of DRF
      serializers) are the fields of the classes [Externals] and
      [Renderers]; every definition and theorem is parametric in them. *)

From stdpp Require Import gmap strings list fin_maps sorting pretty.
From Stdlib Require Import ZArith QArith.
Close Scope Q_scope.
Open Scope Z_scope.

(** ** Python strings *)

Abbreviation pystr := (list N).

(** Decoding of UTF-8 bytes into code points (well-formed input). *)
Fixpoint utf8_decode (bs : list N) : pystr :=
  match bs with
  | [] => []
  | b :: r =>
      if (b <? 128)%N then b :: utf8_decode r
      else if (b <? 224)%N then
        match r with
        | c :: r' => ((b - 192) * 64 + (c - 128))%N :: utf8_decode r'
        | [] => [b]
        end
      else if (b <? 240)%N then
        match r with
        | c :: d :: r' =>
            ((b - 224) * 4096 + (c - 128) * 64 + (d - 128))%N :: utf8_decode r'
        | _ => [b]
        end
      else
        match r with
        | c :: d :: e :: r' =>
            ((b - 240) * 262144 + (c - 128) * 4096 + (d - 128) * 64 + (e - 128))%N
              :: utf8_decode r'
        | _ => [b]
        end
  end.

(** A string literal of the source. *)
Definition py (s : string) : pystr :=
  utf8_decode ((λ a, Ascii.N_of_ascii a) <$> String.list_ascii_of_string s).

(** [repr] of a [str] key that holds no quote and no escape, such as the
    literal keys of the source: the key between single quotes. *)
Definition repr_key (k : pystr) : pystr := py "'" ++ k ++ py "'".

(** Code points that [str.strip()] removes: the Unicode white space. *)
Definition isspace (c : N) : bool :=
  ((9 <=? c) && (c <=? 13) || (28 <=? c) && (c <=? 32)
   || (c =? 133) || (c =? 160) || (c =? 5760)
   || (8192 <=? c) && (c <=? 8202)
   || (c =? 8232) || (c =? 8233) || (c =? 8239) || (c =? 8287)
   || (c =? 12288))%N.

Fixpoint lstrip (s : pystr) : pystr :=
  match s with
  | c :: r => if isspace c then lstrip r else s
  | [] => []
  end.

Definition strip (s : pystr) : pystr := reverse (lstrip (reverse (lstrip s))).

(** [s.split(',')[0]]: the text before the first comma. *)
Fixpoint split_comma_head (s : pystr) : pystr :=
  match s with
  | c :: r => if (c =? 44)%N then [] else c :: split_comma_head r
  | [] => []
  end.

(** Truth value of an optional string: [None] and [''] are false. *)
Definition truthy (s : option pystr) : bool :=
  match s with
  | Some (_ :: _) => true
  | _ => false
  end.

(** [s or '']. *)
Definition or_empty (s : option pystr) : pystr :=
  if truthy s then default [] s else [].

(** ** Python values *)

#[warnings="-register-all"]
Inductive pyval :=
| PNone
| PBool (b : bool)
| PInt (n : Z)
| PFloat (q : Q)
| PStr (s : pystr)
| PList (l : list pyval)
| PDict (d : gmap pystr pyval).

Abbreviation pydict := (gmap pystr pyval).

(** ** Exceptions *)

Inductive exn :=
| ValueError (msg : pystr)
| KeyError (msg : pystr)          (* [msg] is [str(e)], the [repr] of the key *)
| IndexError
| TypeError
| AttributeError
| OverflowError
| FieldError (field : pystr)      (* django.core.exceptions *)
| IntegrityError (column : pystr) (* django.db *)
| Timeout                         (* requests.exceptions *)
| ConnectionError
| RequestException (msg : pystr).

Inductive result (A : Type) :=
| Return (a : A)
| Raise (e : exn).
Arguments Return {A} a.
Arguments Raise {A} e.

Definition result_bind {A B} (f : A → result B) (m : result A) : result B :=
  match m with
  | Return a => f a
  | Raise e => Raise e
  end.

#[global] Instance result_ret : MRet result := λ A a, Return a.
#[global] Instance result_mbind : MBind result := λ A B f m, result_bind f m.

(** ** Subscripting and [dict.get] on dynamic values *)

(** [v[k]] for a string key [k]. *)
Definition getitem (v : pyval) (k : pystr) : result pyval :=
  match v with
  | PDict d =>
      match d !! k with
      | Some x => Return x
      | None => Raise (KeyError (repr_key k))
      end
  | _ => Raise TypeError
  end.

(** [v[0]]. The keys of a decoded JSON object are strings, so [0] is never a
    key of a [dict]. *)
Definition getitem0 (v : pyval) : result pyval :=
  match v with
  | PList (x :: _) => Return x
  | PList [] => Raise IndexError
  | PStr (c :: _) => Return (PStr [c])
  | PStr [] => Raise IndexError
  | PDict _ => Raise (KeyError (py "0"))
  | _ => Raise TypeError
  end.

(** [v.get(k, dflt)]. *)
Definition get_default (v : pyval) (k : pystr) (dflt : pyval) : result pyval :=
  match v with
  | PDict d => Return (default dflt (d !! k))
  | _ => Raise AttributeError
  end.

(** ** Functions defined outside the application *)

Class Externals := {
  (** [str.lower], [str.upper] *)
  str_lower : pystr → pystr;
  str_upper : pystr → pystr;
  (** the built-ins [int(v)], [float(v)], [str(v)] *)
  py_int : pyval → result Z;
  py_float : pyval → result Q;
  py_str : pyval → pystr;
  (** [datetime.isoformat()] of a clock reading *)
  isoformat : Z → pystr;
  (** [django.utils.ipv6.clean_ipv6_address]; what it raises is a
      [ValidationError] *)
  clean_ipv6_address : pystr → result pystr;
  (** the database the project settings choose, which are not part of the
      application: the value a column of each type stores (the automatic
      primary key, [integer], [varchar(max_length)], [text] and the column
      of an IP address), or the error for a value the column cannot hold;
      and the next automatic [id] once a row is inserted with an explicit
      one, from the next [id] so far and the explicit one *)
  db_autofield : Z → result Z;
  db_integer : Z → result Z;
  db_varchar : Z → pystr → result pystr;
  db_text : pystr → result pystr;
  db_ipaddress : pystr → result pystr;
  db_sequence : Z → Z → Z;
}.

(** An instance to run the definitions on examples: the case mappings
    restricted to Basic Latin and Latin-1, [int()] restricted to an optional
    sign followed by ASCII digits and to numbers, the remaining conversions
    on the values that need none, and the columns of SQLite: integers of 64
    bits, text of any length, and an [id] sequence that never goes back. *)
Module Latin1.

Definition lower_cp (c : N) : N :=
  if ((65 <=? c) && (c <=? 90) || (192 <=? c) && (c <=? 222) && negb (c =? 215))%N
  then (c + 32)%N else c.

Definition upper_cp (c : N) : N :=
  if ((97 <=? c) && (c <=? 122) || (224 <=? c) && (c <=? 254) && negb (c =? 247))%N
  then (c - 32)%N else c.

Fixpoint digits (acc : Z) (s : pystr) : option Z :=
  match s with
  | [] => Some acc
  | c :: r =>
      if ((48 <=? c) && (c <=? 57))%N
      then digits (10 * acc + Z.of_N (c - 48)) r
      else None
  end.

Definition int_of_str (s : pystr) : option Z :=
  match strip s with
  | [] => None
  | c :: r =>
      if (c =? 45)%N then
        match r with [] => None | _ => Z.opp <$> digits 0 r end
      else if (c =? 43)%N then
        match r with [] => None | _ => digits 0 r end
      else digits 0 (c :: r)
  end.

Definition int (v : pyval) : result Z :=
  match v with
  | PInt n => Return n
  | PBool b => Return (if b then 1 else 0)
  | PFloat q => Return (Z.quot (Qnum q) (Z.pos (Qden q)))
  | PStr s =>
      match int_of_str s with
      | Some n => Return n
      | None => Raise (ValueError (py "invalid literal for int()"))
      end
  | _ => Raise TypeError
  end.

Definition float (v : pyval) : result Q :=
  match v with
  | PInt n => Return (inject_Z n)
  | PFloat q => Return q
  | PBool b => Return (inject_Z (if b then 1 else 0))
  | PStr s =>
      match int_of_str s with
      | Some n => Return (inject_Z n)
      | None => Raise (ValueError (py "could not convert string to float"))
      end
  | _ => Raise TypeError
  end.

Definition str (v : pyval) : pystr :=
  match v with
  | PStr s => s
  | PInt n => py (pretty n)
  | PNone => py "None"
  | PBool true => py "True"
  | PBool false => py "False"
  | _ => py "?"
  end.

Definition int64 (n : Z) : result Z :=
  if bool_decide (-9223372036854775808 ≤ n ≤ 9223372036854775807)
  then Return n else Raise OverflowError.

Definition externals : Externals := {|
  str_lower := fmap lower_cp;
  str_upper := fmap upper_cp;
  py_int := int;
  py_float := float;
  py_str := str;
  isoformat := λ t, py (pretty t);
  clean_ipv6_address := λ s, Return s;
  db_autofield := int64;
  db_integer := int64;
  db_varchar := λ _ s, Return s;
  db_text := λ s, Return s;
  db_ipaddress := λ s, Return s;
  db_sequence := λ next n, Z.max next (n + 1);
|}.

End Latin1.

(** ** [models.py]: the history table

    The columns of [WeatherQuery] and the part of Django's object manager
    that the application calls. *)
Module models.

Record WeatherQuery := {
  id : Z;
  city : pystr;
  country : pystr;
  temperature : Q;
  feels_like : Q;
  humidity : Z;
  pressure : Z;
  description : pystr;
  icon : pystr;
  wind_speed : Q;
  wind_direction : Z;
  visibility : Z;
  uv_index : Q;
  query_timestamp : Z;
  ip_address : option pystr;
  user_agent : pystr;
}.

(** The table: its rows in insertion order and the next automatic [id]. *)
Record Table := {
  rows : list WeatherQuery;
  next_id : Z;
}.

(** A value of a column as the database compares it. *)
Inductive sqlval :=
| SNull
| SInt (n : Z)
| SFloat (q : Q)
| SStr (s : pystr).

(** The fields the model declares, with the implicit primary key and its
    alias [pk]: the names a query may refer to. *)
Definition _meta_fields : list (pystr * (WeatherQuery → sqlval)) := [
  (py "id", λ r, SInt (id r));
  (py "pk", λ r, SInt (id r));
  (py "city", λ r, SStr (city r));
  (py "country", λ r, SStr (country r));
  (py "temperature", λ r, SFloat (temperature r));
  (py "feels_like", λ r, SFloat (feels_like r));
  (py "humidity", λ r, SInt (humidity r));
  (py "pressure", λ r, SInt (pressure r));
  (py "description", λ r, SStr (description r));
  (py "icon", λ r, SStr (icon r));
  (py "wind_speed", λ r, SFloat (wind_speed r));
  (py "wind_direction", λ r, SInt (wind_direction r));
  (py "visibility", λ r, SInt (visibility r));
  (py "uv_index", λ r, SFloat (uv_index r));
  (py "query_timestamp", λ r, SInt (query_timestamp r));
  (py "ip_address", λ r, from_option SStr SNull (ip_address r));
  (py "user_agent", λ r, SStr (user_agent r))
].

Fixpoint get_field {A : Type} (fields : list (pystr * A)) (name : pystr) : option A :=
  match fields with
  | [] => None
  | (n, f) :: rest => if decide (n = name) then Some f else get_field rest name
  end.

Fixpoint str_le (a b : pystr) : bool :=
  match a, b with
  | [], _ => true
  | _ :: _, [] => false
  | x :: a', y :: b' => (x <? y)%N || ((x =? y)%N && str_le a' b')
  end.

(** Ascending order of column values, [NULL] first. *)
Definition sql_le (a b : sqlval) : bool :=
  match a, b with
  | SNull, _ => true
  | _, SNull => false
  | SInt x, SInt y => bool_decide (x ≤ y)
  | SInt _, _ => true
  | _, SInt _ => false
  | SFloat x, SFloat y => Qle_bool x y
  | SFloat _, _ => true
  | _, SFloat _ => false
  | SStr x, SStr y => str_le x y
  end.

(** [objects.order_by('-name')]: the name is resolved against the model
    (an unknown name is a [FieldError]); the rows come out by descending
    value of that column. The order among rows of equal value is the
    database's choice; here it is the one of the merge sort. *)
Definition order_by_desc (name : pystr) (t : Table) : result (list WeatherQuery) :=
  match get_field _meta_fields name with
  | Some col => Return (merge_sort (λ a b, sql_le (col b) (col a)) (rows t))
  | None => Raise (FieldError name)
  end.

(** [qs[:n]]; a negative bound is refused. *)
Definition slice (n : Z) (l : list WeatherQuery) : result (list WeatherQuery) :=
  if bool_decide (0 ≤ n) then Return (take (Z.to_nat n) l)
  else Raise (ValueError (py "Negative indexing is not supported.")).

(** [qs.values_list('id', flat=True)] *)
Definition values_list_id (l : list WeatherQuery) : list Z := id <$> l.

(** [objects.exclude(id__in=ids).delete()]: the table without the rows
    whose [id] is not in [ids], and the number of rows deleted. *)
Definition exclude_id_in_delete (ids : list Z) (t : Table) : Table * Z :=
  let kept := filter (λ r, id r ∈ ids) (rows t) in
  ({| rows := kept; next_id := next_id t |},
   Z.of_nat (length (rows t)) - Z.of_nat (length kept)).

Section create.
Context `{Externals}.

(** Conversions of a field's value for the database
    ([Field.get_db_prep_save]); [None] is [NULL]. The conversions are those
    of Python; whether the column holds the converted value is decided by
    the database, in [create]. *)
Definition CharField_prep (v : pyval) : result (option pystr) :=
  match v with
  | PNone => Return None
  | PStr s => Return (Some s)
  | _ => Return (Some (py_str v))
  end.

Definition FloatField_prep (v : pyval) : result (option Q) :=
  match v with
  | PNone => Return None
  | _ => q ← py_float v; Return (Some q)
  end.

Definition IntegerField_prep (v : pyval) : result (option Z) :=
  match v with
  | PNone => Return None
  | _ => n ← py_int v; Return (Some n)
  end.

(** [GenericIPAddressField.get_prep_value] followed by
    [adapt_ipaddressfield_value]: a value holding a colon is cleaned as an
    IPv6 address, and kept as it is when the cleaning refuses it; a number
    other than zero has no [in]; an empty result is [NULL]. *)
Definition GenericIPAddressField_prep (v : pyval) : result (option pystr) :=
  let or_None (s : pystr) := if truthy (Some s) then Some s else None in
  match v with
  | PNone => Return None
  | PStr s =>
      if bool_decide (58%N ∈ s) then
        match clean_ipv6_address s with
        | Return cleaned => Return (or_None cleaned)
        | Raise _ => Return (or_None s)
        end
      else Return (or_None s)
  | PBool false => Return (or_None (py_str v))
  | PBool true => Raise TypeError
  | PInt n => if bool_decide (n = 0) then Return (or_None (py_str v)) else Raise TypeError
  | PFloat q => if Qeq_bool q 0 then Return (or_None (py_str v)) else Raise TypeError
  | PList _ | PDict _ => Return (or_None (py_str v))
  end.

(** The value of a field for a new row: the keyword argument converted,
    or the field's default when the argument is not given. *)
Definition field_value {A : Type} (kwargs : pydict) (name : pystr)
    (prep : pyval → result (option A)) (dflt : option A) : result (option A) :=
  match kwargs !! name with
  | Some v => prep v
  | None => Return dflt
  end.

(** The primary key given to the constructor: [pk], which is set after the
    fields, or else [id]; [None] asks for the automatic one. *)
Definition explicit_id (kwargs : pydict) : pyval :=
  match kwargs !! py "pk" with
  | Some v => v
  | None => default PNone (kwargs !! py "id")
  end.

(** The value as the column stores it; [NULL] is stored in any column. *)
Definition stored {A : Type} (column : A → result A) (v : option A)
    : result (option A) :=
  match v with
  | Some x => y ← column x; Return (Some y)
  | None => Return None
  end.

(** A [NULL] in a column declared without [null=True] is refused. *)
Definition not_null {A : Type} (column : pystr) (v : option A) : result A :=
  match v with
  | Some x => Return x
  | None => Raise (IntegrityError column)
  end.

(** The primary key is unique. *)
Definition unique_id (n : Z) (t : Table) : result Z :=
  if bool_decide (n ∈ id <$> rows t) then Raise (IntegrityError (py "id"))
  else Return n.

(** The keyword arguments the constructor sets: the fields of the model,
    with [pk]. *)
Definition settable : gset pystr := list_to_set (fst <$> _meta_fields).

(** The properties of the model without a setter. *)
Definition read_only_properties : gset pystr :=
  {[ py "formatted_temperature"; py "formatted_feels_like" ]}.

(** [WeatherQuery.objects.create] with keyword arguments [kwargs], at clock
    reading [now]: the constructor sets the attributes (a property without
    setter is an [AttributeError], another unknown name a [TypeError]);
    the insertion converts the fields in the order of their declaration,
    [query_timestamp] taking the clock reading whatever was given for it,
    and hands the values to the columns of the database, of the types and
    lengths [models.py] declares. *)
Definition create (kwargs : pydict) (now : Z) (t : Table)
    : result (WeatherQuery * Table) :=
  if bool_decide (dom kwargs ## read_only_properties) then
    if bool_decide (dom kwargs ⊆ settable) then
      v_id ← IntegerField_prep (explicit_id kwargs);
      v_city ← field_value kwargs (py "city") CharField_prep (Some []);
      v_country ← field_value kwargs (py "country") CharField_prep (Some []);
      v_temperature ← field_value kwargs (py "temperature") FloatField_prep None;
      v_feels_like ← field_value kwargs (py "feels_like") FloatField_prep None;
      v_humidity ← field_value kwargs (py "humidity") IntegerField_prep None;
      v_pressure ← field_value kwargs (py "pressure") IntegerField_prep None;
      v_description ← field_value kwargs (py "description") CharField_prep (Some []);
      v_icon ← field_value kwargs (py "icon") CharField_prep (Some []);
      v_wind_speed ← field_value kwargs (py "wind_speed") FloatField_prep (Some 0%Q);
      v_wind_direction ←
        field_value kwargs (py "wind_direction") IntegerField_prep (Some 0);
      v_visibility ← field_value kwargs (py "visibility") IntegerField_prep (Some 0);
      v_uv_index ← field_value kwargs (py "uv_index") FloatField_prep (Some 0%Q);
      v_ip_address ←
        field_value kwargs (py "ip_address") GenericIPAddressField_prep None;
      v_user_agent ← field_value kwargs (py "user_agent") CharField_prep (Some []);
      s_id ← stored db_autofield v_id;
      s_city ← stored (db_varchar 100) v_city;
      s_country ← stored (db_varchar 2) v_country;
      s_humidity ← stored db_integer v_humidity;
      s_pressure ← stored db_integer v_pressure;
      s_description ← stored (db_varchar 200) v_description;
      s_icon ← stored (db_varchar 10) v_icon;
      s_wind_direction ← stored db_integer v_wind_direction;
      s_visibility ← stored db_integer v_visibility;
      s_ip_address ← stored db_ipaddress v_ip_address;
      s_user_agent ← stored db_text v_user_agent;
      c_city ← not_null (py "city") s_city;
      c_country ← not_null (py "country") s_country;
      c_temperature ← not_null (py "temperature") v_temperature;
      c_feels_like ← not_null (py "feels_like") v_feels_like;
      c_humidity ← not_null (py "humidity") s_humidity;
      c_pressure ← not_null (py "pressure") s_pressure;
      c_description ← not_null (py "description") s_description;
      c_icon ← not_null (py "icon") s_icon;
      c_wind_speed ← not_null (py "wind_speed") v_wind_speed;
      c_wind_direction ← not_null (py "wind_direction") s_wind_direction;
      c_visibility ← not_null (py "visibility") s_visibility;
      c_uv_index ← not_null (py "uv_index") v_uv_index;
      c_user_agent ← not_null (py "user_agent") s_user_agent;
      c_id ← unique_id (default (next_id t) s_id) t;
      let query := {|
        id := c_id;
        city := c_city;
        country := c_country;
        temperature := c_temperature;
        feels_like := c_feels_like;
        humidity := c_humidity;
        pressure := c_pressure;
        description := c_description;
        icon := c_icon;
        wind_speed := c_wind_speed;
        wind_direction := c_wind_direction;
        visibility := c_visibility;
        uv_index := c_uv_index;
        query_timestamp := now;
        ip_address := s_ip_address;
        user_agent := c_user_agent;
      |} in
      Return (query,
              {| rows := rows t ++ [query];
                 next_id := match s_id with
                            | Some n => db_sequence (next_id t) n
                            | None => next_id t + 1
                            end |})
    else Raise TypeError
  else Raise AttributeError.

End create.

End models.

(** The rendering done by Django REST framework, outside the application:
    [WeatherResponseSerializer(record).data], which may raise on a value it
    cannot convert, and [WeatherQuerySerializer(row).data]. *)
Class Renderers := {
  WeatherResponseSerializer_data : pydict → result pyval;
  WeatherQuerySerializer_data : models.WeatherQuery → pyval;
}.

(** An instance to run the views on examples. The record is rendered field
    by field as [WeatherResponseSerializer] declares them
    ([serializers.py], lines 71 to 87): a declared field the record lacks
    is a [KeyError], except [cached], which has a default and is left out;
    [None] is rendered as it is, and another value by the conversion of its
    field, with the built-ins of [Latin1]. The text of the [KeyError] is
    the key alone; the view shows no text of it. A row is rendered by its
    identifying columns. *)
Module rendering.

Definition CharField (v : pyval) : result pyval := Return (PStr (Latin1.str v)).

Definition FloatField (v : pyval) : result pyval :=
  q ← Latin1.float v; Return (PFloat q).

Definition IntegerField (v : pyval) : result pyval :=
  n ← Latin1.int v; Return (PInt n).

Definition BooleanField (v : pyval) : result pyval :=
  match v with
  | PBool b => Return (PBool b)
  | _ => Raise TypeError
  end.

Definition DateTimeField (v : pyval) : result pyval :=
  match v with
  | PStr [] => Return PNone
  | PStr s => Return (PStr s)
  | _ => Raise TypeError
  end.

(** The fields [WeatherResponseSerializer] declares, in their order, each
    with its conversion and whether it is required. *)
Definition declared_fields : list (pystr * (pyval → result pyval) * bool) := [
  (py "city", CharField, true);
  (py "country", CharField, true);
  (py "temperature", FloatField, true);
  (py "feels_like", FloatField, true);
  (py "humidity", IntegerField, true);
  (py "pressure", IntegerField, true);
  (py "description", CharField, true);
  (py "icon", CharField, true);
  (py "wind_speed", FloatField, true);
  (py "wind_direction", IntegerField, true);
  (py "visibility", IntegerField, true);
  (py "cached", BooleanField, false);
  (py "timestamp", DateTimeField, true)
].

Fixpoint to_representation (fields : list (pystr * (pyval → result pyval) * bool))
    (record : pydict) : result pydict :=
  match fields with
  | [] => Return ∅
  | (name, convert, required) :: rest =>
      match record !! name with
      | None =>
          if required then Raise (KeyError (repr_key name))
          else to_representation rest record
      | Some PNone =>
          out ← to_representation rest record; Return (<[name := PNone]> out)
      | Some v =>
          x ← convert v;
          out ← to_representation rest record; Return (<[name := x]> out)
      end
  end.

End rendering.

Definition field_renderers : Renderers := {|
  WeatherResponseSerializer_data := λ record,
    out ← rendering.to_representation rendering.declared_fields record;
    Return (PDict out);
  WeatherQuerySerializer_data := λ r,
    PDict (list_to_map [
      (py "id", PInt (models.id r));
      (py "city", PStr (models.city r));
      (py "country", PStr (models.country r));
      (py "description", PStr (models.description r));
      (py "query_timestamp", PInt (models.query_timestamp r))]);
|}.

(** ** The environment of the process *)

(** The query string of the request to the provider. *)
Record Params := {
  q : pystr;
  appid : pystr;
  units : pystr;
  lang : pystr;
}.

(** What [requests.get] returns: the status code, the text of the
    [HTTPError] that [raise_for_status] builds from it, and the outcome of
    [response.json()]. *)
Record Response := {
  status_code : Z;
  http_error : pystr;
  json : result pyval;
}.

(** A message on the task broker: a task of [tasks.py] with its arguments. *)
Inductive Job :=
| save_weather_query_async_job
    (city : pystr) (country : option pystr) (weather_data : pydict)
    (ip_address user_agent : option pystr)
| cleanup_old_queries_job.

Record World := {
  OPENWEATHER_API_KEY : option pystr;      (* settings *)
  clock : Z;                               (* timezone.now(), in seconds *)
  cache : gmap pystr (pydict * Z);         (* key -> value, expiry *)
  network : pystr → Params → result Response; (* the provider, per url and query *)
  sent : list Params;                      (* requests issued so far *)
  broker : list Job;                       (* jobs enqueued so far *)
  table : models.Table;                    (* the history table *)
}.

Definition set_cache (c : gmap pystr (pydict * Z)) (w : World) : World :=
  {| OPENWEATHER_API_KEY := OPENWEATHER_API_KEY w; clock := clock w; cache := c;
     network := network w; sent := sent w; broker := broker w; table := table w |}.

Definition set_sent (l : list Params) (w : World) : World :=
  {| OPENWEATHER_API_KEY := OPENWEATHER_API_KEY w; clock := clock w; cache := cache w;
     network := network w; sent := l; broker := broker w; table := table w |}.

Definition set_broker (l : list Job) (w : World) : World :=
  {| OPENWEATHER_API_KEY := OPENWEATHER_API_KEY w; clock := clock w; cache := cache w;
     network := network w; sent := sent w; broker := l; table := table w |}.

Definition set_table (t : models.Table) (w : World) : World :=
  {| OPENWEATHER_API_KEY := OPENWEATHER_API_KEY w; clock := clock w; cache := cache w;
     network := network w; sent := sent w; broker := broker w; table := t |}.

(** Time passing between two requests. *)
Definition set_clock (t : Z) (w : World) : World :=
  {| OPENWEATHER_API_KEY := OPENWEATHER_API_KEY w; clock := t; cache := cache w;
     network := network w; sent := sent w; broker := broker w; table := table w |}.

(** ** Computations over the environment *)

Definition M (A : Type) : Type := World → result A * World.

#[global] Instance M_ret : MRet M := λ A a w, (Return a, w).
#[global] Instance M_bind : MBind M := λ A B f m w,
  match m w with
  | (Return a, w') => f a w'
  | (Raise e, w') => (Raise e, w')
  end.

Definition raise {A} (e : exn) : M A := λ w, (Raise e, w).
Definition lift {A} (r : result A) : M A := λ w, (r, w).
Definition gets {A} (f : World → A) : M A := λ w, (Return (f w), w).
Definition modify (f : World → World) : M unit := λ w, (Return tt, f w).

(** [try: m except Exception as e: h e] *)
Definition try_except {A} (m : M A) (h : exn → M A) : M A := λ w,
  match m w with
  | (Return a, w') => (Return a, w')
  | (Raise e, w') => h e w'
  end.

(** Modelled from the spec: the cache backend behind [django.core.cache] is
    chosen by the project settings, which are not among the sources. The
    Cache Store contract is [get(key) -> value | absent] and
    [set(key, value, ttl)]: an entry is served until its time-to-live has
    elapsed, and what is stored is a copy of the value at the time of
    [set]. *)
Definition cache_get (key : pystr) : M (option pydict) :=
  gets (λ w, match cache w !! key with
             | Some (value, expiry) =>
                 if bool_decide (clock w < expiry) then Some value else None
             | None => None
             end).

Definition cache_set (key : pystr) (value : pydict) (timeout : Z) : M unit :=
  modify (λ w, set_cache (<[key := (value, clock w + timeout)]> (cache w)) w).

(** [requests.get(url, params=params, timeout=10)] *)
Definition requests_get (url : pystr) (params : Params) : M Response := λ w,
  (network w url params, set_sent (sent w ++ [params]) w).

(** [response.raise_for_status()] *)
Definition raise_for_status (r : Response) : M unit :=
  if bool_decide (400 ≤ status_code r < 600)
  then raise (RequestException (http_error r))
  else mret tt.

(** Modelled from the spec: the task queue behind [task.delay(...)] is
    configured by the project settings, which are not among the sources.
    Submitting a job adds it to the broker and returns; the job runs outside
    the request. *)
Definition delay (j : Job) : M unit :=
  modify (λ w, set_broker (broker w ++ [j]) w).

(** A read of the history table. *)
Definition query {A} (f : models.Table → result A) : M A := λ w, (f (table w), w).

(** A change of the history table. *)
Definition execute {A} (f : models.Table → result (A * models.Table)) : M A := λ w,
  match f (table w) with
  | Return (a, t) => (Return a, set_table t w)
  | Raise e => (Raise e, w)
  end.

(** ** [tasks.py] *)
Module tasks.
Section tasks.
Context `{Externals}.

Definition save_weather_query_async (city : pystr) (country : option pystr)
    (weather_data : pydict) (ip_address user_agent : option pystr) : M Z :=
  try_except
    ((* Cria a consulta *)
     now ← gets clock;
     query ← execute (models.create
               (list_to_map [
                  (py "city", PStr city);
                  (py "country", PStr (or_empty country));
                  (py "temperature",
                     default (PInt 0) (weather_data !! py "temperature"));
                  (py "description",
                     default (PStr []) (weather_data !! py "description"));
                  (py "ip_address", PStr (or_empty ip_address));
                  (py "user_agent", PStr (or_empty user_agent))])
               now);
     (* Limpa consultas antigas (mantém só 100) *)
     _ ← delay cleanup_old_queries_job;
     mret (models.id query))
    (λ e, raise e).

Definition cleanup_old_queries : M Z :=
  try_except
    ((* Pega as 100 mais recentes *)
     ordered ← query (models.order_by_desc (py "created_at"));
     newest ← lift (models.slice 100 ordered);
     let keep_ids := models.values_list_id newest in
     (* Remove as antigas *)
     deleted_count ← execute (λ t,
       let '(t', n) := models.exclude_id_in_delete keep_ids t in Return (n, t'));
     mret deleted_count)
    (λ e, raise e).

End tasks.
End tasks.

(** ** [services.py] *)
Module services.
Section WeatherService.
Context `{Externals}.

Record WeatherService := {
  api_key : option pystr;
  base_url : pystr;
  cache_timeout : Z;
}.

Definition __init__ : M WeatherService :=
  key ← gets OPENWEATHER_API_KEY;
  mret {| api_key := key;
          base_url := py "https://api.openweathermap.org/data/2.5/weather";
          cache_timeout := 600 (* 10 minutos *) |}.

(** Cria chave única para cache *)
Definition _make_cache_key (city : pystr) (country : option pystr) : pystr :=
  if truthy country
  then py "weather:" ++ str_lower city ++ py ":" ++ str_lower (default [] country)
  else py "weather:" ++ str_lower city.

(** Converte dados da API para formato padrão *)
Definition _parse_weather_data (data : pyval) : M pydict :=
  try_except
    (v_city ← lift (getitem data (py "name"));
     v_country ← lift (sys ← getitem data (py "sys"); getitem sys (py "country"));
     v_temperature ← lift (main ← getitem data (py "main"); getitem main (py "temp"));
     v_feels_like ←
       lift (main ← getitem data (py "main"); getitem main (py "feels_like"));
     v_humidity ←
       lift (main ← getitem data (py "main"); getitem main (py "humidity"));
     v_pressure ←
       lift (main ← getitem data (py "main"); getitem main (py "pressure"));
     v_description ←
       lift (weather ← getitem data (py "weather");
             first ← getitem0 weather;
             getitem first (py "description"));
     v_icon ←
       lift (weather ← getitem data (py "weather");
             first ← getitem0 weather;
             getitem first (py "icon"));
     v_wind_speed ← lift (wind ← getitem data (py "wind"); getitem wind (py "speed"));
     v_wind_direction ←
       lift (wind ← getitem data (py "wind"); get_default wind (py "deg") (PInt 0));
     v_visibility ← lift (get_default data (py "visibility") (PInt 0));
     now ← gets clock;
     mret (list_to_map [
       (py "city", v_city);
       (py "country", v_country);
       (py "temperature", v_temperature);
       (py "feels_like", v_feels_like);
       (py "humidity", v_humidity);
       (py "pressure", v_pressure);
       (py "description", v_description);
       (py "icon", v_icon);
       (py "wind_speed", v_wind_speed);
       (py "wind_direction", v_wind_direction);
       (py "visibility", v_visibility);
       (py "timestamp", PStr (isoformat now))] : pydict))
    (λ e,
       match e with
       | KeyError msg => raise (ValueError (py "Dados da API incompletos: " ++ msg))
       | _ => raise e
       end).

(** Monta URL: the [params] of the request to the provider. *)
Definition params (self : WeatherService) (city : pystr) (country : option pystr)
    : Params := {|
  q := if truthy country then city ++ py "," ++ default [] country else city;
  appid := default [] (api_key self);
  units := py "metric";
  lang := py "pt_br" |}.

(** Busca dados na API do OpenWeatherMap *)
Definition _fetch_from_api (self : WeatherService)
    (city : pystr) (country : option pystr) : M pydict :=
  if negb (truthy (api_key self)) then
    raise (ValueError (py "API key do OpenWeatherMap não configurada"))
  else
    let params := params self city country in
    try_except
      (response ← requests_get (base_url self) params;
       if bool_decide (status_code response = 404) then
         raise (ValueError (py "Cidade '" ++ city ++ py "' não encontrada"))
       else if bool_decide (status_code response = 401) then
         raise (ValueError (py "API key inválida"))
       else
         _ ← raise_for_status response;
         data ← lift (json response);
         _parse_weather_data data)
      (λ e,
         match e with
         | Timeout => raise (ValueError (py "Timeout ao buscar dados meteorológicos"))
         | ConnectionError => raise (ValueError (py "Erro de conexão com a API"))
         | RequestException msg =>
             raise (ValueError (py "Erro ao buscar dados: " ++ msg))
         | _ => raise e
         end).

(** Busca clima com cache *)
Definition get_weather (self : WeatherService) (city : pystr)
    (country ip_address user_agent : option pystr) : M pydict :=
  (* Chave do cache *)
  let cache_key := _make_cache_key city country in
  let miss : M pydict :=
    (* Busca na API *)
    weather_data ← _fetch_from_api self city country;
    (* Salva no cache *)
    _ ← cache_set cache_key weather_data (cache_timeout self);
    (* Salva histórico em background *)
    _ ← (if truthy ip_address
         then delay (save_weather_query_async_job
                       city country weather_data ip_address user_agent)
         else mret tt);
    mret (<[py "cached" := PBool false]> weather_data) in
  (* Tenta cache primeiro; [if cached_data:] is false for an absent entry
     and for an empty [dict] *)
  cached_data ← cache_get cache_key;
  match cached_data with
  | Some hit =>
      if bool_decide (hit ≠ ∅) then mret (<[py "cached" := PBool true]> hit)
      else miss
  | None => miss
  end.

(** Busca histórico de consultas *)
Definition get_weather_history (self : WeatherService) (limit : option Z)
    : M (list models.WeatherQuery) :=
  let limit := default 10 limit in
  ordered ← query (models.order_by_desc (py "query_timestamp"));
  lift (models.slice limit ordered).

End WeatherService.
End services.

(** ** [serializers.py] *)
Module serializers.

(** The outcome of one field of a serializer. *)
Inductive field_result (A : Type) :=
| Skipped                        (* not given and not required *)
| Invalid (messages : list pystr)
| Valid (value : A).
Arguments Skipped {A}.
Arguments Invalid {A} messages.
Arguments Valid {A} value.

(** [serializers.CharField(max_length=..., required=...)] on a value of a
    query string, followed by the serializer's [validate_<field>]: blank
    input is refused, the value is trimmed, then the validators run. *)
Definition CharField {A} (required : bool) (max_length : Z) (too_long : pystr)
    (validate : pystr → field_result A) (data : option pystr) : field_result A :=
  match data with
  | None =>
      if required then Invalid [py "This field is required."] else Skipped
  | Some raw =>
      if bool_decide (raw = []) && negb required then Skipped
      else if bool_decide (strip raw = []) then
        Invalid [py "This field may not be blank."]
      else
        let value := strip raw in
        let errors :=
          (if bool_decide (max_length < Z.of_nat (length value)) then [too_long] else [])
          ++ (if bool_decide (0%N ∈ value)
              then [py "Null characters are not allowed."] else []) in
        match errors with
        | [] => validate value
        | _ => Invalid errors
        end
  end.

Section WeatherRequestSerializer.
Context `{Externals}.

(** Valida o nome da cidade *)
Definition validate_city (value : pystr) : field_result pystr :=
  if bool_decide (strip value = []) then
    Invalid [py "Nome da cidade não pode estar vazio."]
  else if bool_decide (Z.of_nat (length (strip value)) < 2) then
    Invalid [py "Nome da cidade deve ter pelo menos 2 caracteres."]
  else Valid (strip value).

(** Valida o código do país *)
Definition validate_country (value : pystr) : field_result (option pystr) :=
  if truthy (Some value) && bool_decide (Z.of_nat (length value) ≠ 2) then
    Invalid [py "Código do país deve ter exatamente 2 caracteres."]
  else Valid (if truthy (Some value) then Some (str_upper value) else None).

Definition city_field : option pystr → field_result pystr :=
  CharField true 100 (py "Ensure this field has no more than 100 characters.")
    validate_city.

Definition country_field : option pystr → field_result (option pystr) :=
  CharField false 2 (py "Ensure this field has no more than 2 characters.")
    validate_country.

Definition field_errors {A} (name : pystr) (r : field_result A) : pydict :=
  match r with
  | Invalid messages => {[ name := PList (PStr <$> messages) ]}
  | _ => ∅
  end.

(** [WeatherRequestSerializer(data=...)]: [inl errors] when [is_valid()]
    is false, [inr (city, country)] for [validated_data] otherwise, with
    [country] as [validated_data.get('country')]. *)
Definition WeatherRequestSerializer (data : gmap pystr pystr)
    : pydict + pystr * option pystr :=
  let r_city := city_field (data !! py "city") in
  let r_country := country_field (data !! py "country") in
  match r_city, r_country with
  | Valid city, Valid country => inr (city, country)
  | Valid city, Skipped => inr (city, None)
  | _, _ =>
      inl (field_errors (py "city") r_city ∪ field_errors (py "country") r_country)
  end.

End WeatherRequestSerializer.
End serializers.

(** ** [views.py] *)
Module views.

Record Request := {
  GET : gmap pystr pystr;     (* the query string *)
  META : gmap pystr pystr;    (* headers and connection data *)
}.

(** [Response(data, status=...)] *)
Record Response := {
  data : pyval;
  status : Z;
}.

Definition HTTP_200_OK : Z := 200.
Definition HTTP_400_BAD_REQUEST : Z := 400.
Definition HTTP_500_INTERNAL_SERVER_ERROR : Z := 500.

(** Pega o IP do cliente - funciona com proxy também *)
Definition get_client_ip (request : Request) : option pystr :=
  let x_forwarded_for := META request !! py "HTTP_X_FORWARDED_FOR" in
  if truthy x_forwarded_for
  then Some (split_comma_head (default [] x_forwarded_for))
  else META request !! py "REMOTE_ADDR".

Section views.
Context `{Externals} `{Renderers}.

(** Busca clima atual com cache de 10min. The throttling decorators are
    collaborators of the view and not part of it. *)
Definition get_weather (request : Request) : M Response :=
  try_except
    ((* Valida os parâmetros *)
     match serializers.WeatherRequestSerializer (GET request) with
     | inl errors =>
         mret {| data := PDict (list_to_map [
                           (py "error", PStr (py "Parâmetros inválidos"));
                           (py "details", PDict errors)]);
                 status := HTTP_400_BAD_REQUEST |}
     | inr (city, country) =>
         (* Info do cliente *)
         let client_ip := get_client_ip request in
         let user_agent := Some (default [] (META request !! py "HTTP_USER_AGENT")) in
         (* Busca o clima *)
         weather_svc ← services.__init__;
         result ← services.get_weather weather_svc city country client_ip user_agent;
         (* Resposta *)
         response_data ← lift (WeatherResponseSerializer_data result);
         mret {| data := response_data; status := HTTP_200_OK |}
     end)
    (λ e,
       match e with
       | ValueError msg =>
           mret {| data := PDict {[ py "error" := PStr msg ]};
                   status := HTTP_400_BAD_REQUEST |}
       | _ =>
           mret {| data := PDict {[ py "error" := PStr (py "Erro interno do servidor") ]};
                   status := HTTP_500_INTERNAL_SERVER_ERROR |}
       end).

(** Histórico das consultas meteorológicas *)
Definition get_history (request : Request) : M Response :=
  try_except
    ((* Pega o limit *)
     let limit_param := GET request !! py "limit" in
     (* Busca histórico *)
     let fetch (limit : option Z) : M Response :=
       weather_svc ← services.__init__;
       history ← services.get_weather_history weather_svc limit;
       (* Serializa *)
       mret {| data := PList (WeatherQuerySerializer_data <$> history);
               status := HTTP_200_OK |} in
     if truthy limit_param then
       match py_int (PStr (default [] limit_param)) with
       | Return limit =>
           if bool_decide (limit ≤ 0) then
             mret {| data := PDict {[ py "error" := PStr (py "Limit deve ser positivo") ]};
                     status := HTTP_400_BAD_REQUEST |}
           else
             (* Max 100 consultas *)
             fetch (Some (if bool_decide (limit > 100) then 100 else limit))
       | Raise (ValueError _) =>
           mret {| data := PDict {[ py "error" := PStr (py "Limit deve ser um número") ]};
                   status := HTTP_400_BAD_REQUEST |}
       | Raise e => raise e
       end
     else fetch None)
    (λ e,
       mret {| data := PDict {[ py "error" := PStr (py "Erro interno do servidor") ]};
               status := HTTP_500_INTERNAL_SERVER_ERROR |}).

End views.
End views.

(** ** Vocabulary of the statements *)

(** Rows by descending [query_timestamp]. *)
Definition newest_first (l : list models.WeatherQuery) : Prop :=
  Sorted (λ a b, models.query_timestamp b ≤ models.query_timestamp a) l.

(** [entries] are the [n] newest of [rows], newest first. *)
Definition newest_page (n : nat) (rows entries : list models.WeatherQuery) : Prop :=
  ∃ ordered, ordered ≡ₚ rows ∧ newest_first ordered ∧ entries = take n ordered.

(** A computation that leaves the environment as it found it. *)
Definition readonly {A} (m : M A) : Prop := ∀ w, (m w).2 = w.

(** The body [{'error': msg}] with status 400. *)
Definition bad_request (msg : pystr) : views.Response :=
  {| views.data := PDict {[ py "error" := PStr msg ]};
     views.status := views.HTTP_400_BAD_REQUEST |}.

(** The body [{'error': 'Erro interno do servidor'}] with status 500. *)
Definition internal_error : views.Response :=
  {| views.data := PDict {[ py "error" := PStr (py "Erro interno do servidor") ]};
     views.status := views.HTTP_500_INTERNAL_SERVER_ERROR |}.

(** The response of the lookup view to an exception: a [ValueError] is a
    domain error and gives 400 with its message, anything else gives 500. *)
Definition error_response (e : exn) : views.Response :=
  match e with
  | ValueError msg => bad_request msg
  | _ => internal_error
  end.

(** ** Concrete inputs *)
Module examples.

(** The provider payload of the test suite. *)
Definition mock_api_response : pydict := list_to_map [
  (py "name", PStr (py "São Paulo"));
  (py "sys", PDict {[ py "country" := PStr (py "BR") ]});
  (py "main", PDict (list_to_map [
     (py "temp", PFloat (51 # 2));
     (py "feels_like", PFloat (136 # 5));
     (py "humidity", PInt 65);
     (py "pressure", PInt 1013)]));
  (py "weather", PList [PDict (list_to_map [
     (py "description", PStr (py "poucas nuvens"));
     (py "icon", PStr (py "02d"))])]);
  (py "wind", PDict (list_to_map [
     (py "speed", PFloat (7 # 2));
     (py "deg", PInt 180)]));
  (py "visibility", PInt 10000)].

(** The same payload with an empty [weather] list: no description, no
    icon. *)
Definition empty_weather_response : pydict :=
  <[py "weather" := PList []]> mock_api_response.

(** The same payload without the [description] key. *)
Definition no_description_response : pydict :=
  <[py "weather" := PList [PDict {[ py "icon" := PStr (py "02d") ]}]]>
    mock_api_response.

(** The same payload without the optional [deg] and [visibility]. *)
Definition no_optional_response : pydict :=
  <[py "wind" := PDict {[ py "speed" := PFloat (7 # 2) ]}]>
    (delete (py "visibility") mock_api_response).

Definition ok (payload : pydict) : result Response :=
  Return {| status_code := 200; http_error := []; json := Return (PDict payload) |}.

Definition status_only (code : Z) : result Response :=
  Return {| status_code := code;
            http_error := py "Client Error";
            json := Raise (RequestException (py "Expecting value")) |}.

(** A process with a cold cache and an empty history table, at clock
    reading 1000, whose provider gives one answer to every request. *)
Definition world (key : option pystr) (answer : result Response) : World := {|
  OPENWEATHER_API_KEY := key;
  clock := 1000;
  cache := ∅;
  network := λ _ _, answer;
  sent := [];
  broker := [];
  table := {| models.rows := []; models.next_id := 1 |};
|}.

(** The service as [__init__] builds it when the credential is [key]. *)
Definition service : services.WeatherService := {|
  services.api_key := Some (py "key");
  services.base_url := py "https://api.openweathermap.org/data/2.5/weather";
  services.cache_timeout := 600;
|}.

(** The record parsed from [mock_api_response] at clock reading 1000. *)
Definition parsed_record : pydict := list_to_map [
  (py "city", PStr (py "São Paulo"));
  (py "country", PStr (py "BR"));
  (py "temperature", PFloat (51 # 2));
  (py "feels_like", PFloat (136 # 5));
  (py "humidity", PInt 65);
  (py "pressure", PInt 1013);
  (py "description", PStr (py "poucas nuvens"));
  (py "icon", PStr (py "02d"));
  (py "wind_speed", PFloat (7 # 2));
  (py "wind_direction", PInt 180);
  (py "visibility", PInt 10000);
  (py "timestamp", PStr (isoformat (Externals := Latin1.externals) 1000))].

(** The record as the cache holds it after that lookup: the twelve fields
    parsed, which [cache.set] stores before [cached] is added. *)
Definition cached_record : pydict := parsed_record.

(** The same process after a lookup of São Paulo, BR at clock reading
    1000: its record is in the cache until 1600. *)
Definition warm_world (key : option pystr) (answer : result Response) : World :=
  set_cache {[ py "weather:são paulo:br" := (cached_record, 1600) ]} (world key answer).

Definition row (id timestamp : Z) : models.WeatherQuery := {|
  models.id := id;
  models.city := py "Cidade";
  models.country := py "BR";
  models.temperature := 20 # 1;
  models.feels_like := 22 # 1;
  models.humidity := 60;
  models.pressure := 1010;
  models.description := py "teste";
  models.icon := [];
  models.wind_speed := 0 # 1;
  models.wind_direction := 0;
  models.visibility := 0;
  models.uv_index := 0 # 1;
  models.query_timestamp := timestamp;
  models.ip_address := None;
  models.user_agent := [];
|}.

(** The same process with [rows] in the history table. *)
Definition world_with_rows (rows : list models.WeatherQuery) : World :=
  set_table {| models.rows := rows; models.next_id := 1 + Z.of_nat (length rows) |}
    (world None (Raise ConnectionError)).

(** The request [GET /api/v1/?city=São Paulo&country=BR] from 10.0.0.1. *)
Definition lookup_request : views.Request := {|
  views.GET := list_to_map [(py "city", py "São Paulo"); (py "country", py "BR")];
  views.META := {[ py "REMOTE_ADDR" := py "10.0.0.1" ]};
|}.

(** The request [GET /api/v1/] without parameters. *)
Definition no_city_request : views.Request :=
  {| views.GET := ∅; views.META := ∅ |}.

(** The request [GET /api/v1/history/] with the given query string. *)
Definition history_request (query : gmap pystr pystr) : views.Request :=
  {| views.GET := query; views.META := ∅ |}.

End examples.

(** ** Vocabulary of the further statements *)

(** A string that starts with no white space. *)
Definition starts_clean (s : pystr) : Prop :=
  match s with
  | c :: _ => isspace c = false
  | [] => True
  end.

(** A string with white space neither at its start nor at its end. *)
Definition trimmed (s : pystr) : Prop := starts_clean s ∧ starts_clean (reverse s).

(** The answer 400 of the lookup view to invalid parameters. *)
Definition invalid_parameters (errors : pydict) : views.Response :=
  {| views.data := PDict (list_to_map [
                     (py "error", PStr (py "Parâmetros inválidos"));
                     (py "details", PDict errors)]);
     views.status := 400 |}.


(** The keys the parser reads, as an error message shows them. *)
Definition keys_read : list pystr :=
  (repr_key <$> [py "name"; py "sys"; py "country"; py "main"; py "temp";
                 py "feels_like"; py "humidity"; py "pressure"; py "weather";
                 py "description"; py "icon"; py "wind"; py "speed"])
  ++ [py "0"].

(** The exceptions reading a payload may end in: a missing key among
    [keys_read], or a value of the wrong shape. *)
Definition read_error (e : exn) : bool :=
  match e with
  | KeyError msg => bool_decide (msg ∈ keys_read)
  | TypeError | IndexError | AttributeError => true
  | _ => false
  end.

(** The exceptions the parser may end in: as [read_error], with the missing
    key turned into the error that names it. *)
Definition parse_error (e : exn) : Prop :=
  match e with
  | ValueError msg =>
      ∃ key, key ∈ keys_read ∧ msg = py "Dados da API incompletos: " ++ key
  | TypeError | IndexError | AttributeError => True
  | _ => False
  end.

(** The twelve fields of a parsed record. *)
Definition record_fields : gset pystr :=
  list_to_set [py "city"; py "country"; py "temperature"; py "feels_like";
               py "humidity"; py "pressure"; py "description"; py "icon";
               py "wind_speed"; py "wind_direction"; py "visibility";
               py "timestamp"].

(** An outcome of [requests.get] that the provider client reports as a
    failure of the request: an exception of [requests], a status from 400
    to 599, or a body that is not JSON. *)
Definition request_failure (outcome : result Response) : Prop :=
  match outcome with
  | Raise Timeout | Raise ConnectionError | Raise (RequestException _) => True
  | Raise _ => False
  | Return response =>
      400 ≤ status_code response < 600
      ∨ ∃ msg, json response = Raise (RequestException msg)
  end.

(** ** Further concrete inputs *)
(** The database stores the defaults of the model: the empty string in
    [icon] and in [user_agent], and 0 in an integer column. *)
Definition stores_defaults `{Externals} : Prop :=
  db_varchar 10 [] = Return [] ∧ db_text [] = Return [] ∧ db_integer 0 = Return 0.

Module more_examples.

(** The cold process with a credential whose provider answers with the
    payload of the test suite. *)
Definition cold_world : World :=
  examples.world (Some (py "key")) (examples.ok examples.mock_api_response).

(** The same process once the request for São Paulo, BR has been sent. *)
Definition requested_world : World :=
  set_sent [services.params examples.service
              (py "São Paulo") (Some (py "BR"))] cold_world.

(** The keyword arguments of a row with its seven required columns. *)
Definition required_columns : pydict := list_to_map [
  (py "city", PStr (py "Brasília"));
  (py "country", PStr (py "BR"));
  (py "temperature", PFloat (22 # 1));
  (py "feels_like", PFloat (43 # 2));
  (py "humidity", PInt 70);
  (py "pressure", PInt 1015);
  (py "description", PStr (py "Céu limpo"))].

(** A lookup request with a [city] of white space only. *)
Definition blank_city_request : views.Request := {|
  views.GET := {[ py "city" := py "   " ]};
  views.META := ∅;
|}.

(** A lookup request with a [country] of seven characters. *)
Definition long_country_request : views.Request := {|
  views.GET := list_to_map [(py "city", py "São Paulo"); (py "country", py "INVALID")];
  views.META := ∅;
|}.

(** A request that came through two proxies. *)
Definition forwarded_request : views.Request := {|
  views.GET := ∅;
  views.META := list_to_map [
    (py "HTTP_X_FORWARDED_FOR", py "203.0.113.7, 10.0.0.2");
    (py "REMOTE_ADDR", py "10.0.0.1")];
|}.

End more_examples.

(** * Properties *)

(** ** Running computations *)

Lemma bind_run {A B} (m : M A) (f : A → M B) (w : World) :
  (m ≫= f) w =
  match m w with
  | (Return a, w') => f a w'
  | (Raise e, w') => (Raise e, w')
  end.
Proof. reflexivity. Qed.

Lemma bind_Return_inv {A B} (m : M A) (f : A → M B) (w w' : World) (b : B) :
  (m ≫= f) w = (Return b, w') →
  ∃ a w1, m w = (Return a, w1) ∧ f a w1 = (Return b, w').
Proof.
  rewrite bind_run. destruct (m w) as [[a|e] w1]; [eauto | discriminate].
Qed.

Lemma try_except_Return_inv {A} (m : M A) (h : exn → M A) (w w' : World) (a : A) :
  try_except m h w = (Return a, w') →
  m w = (Return a, w') ∨ ∃ e w1, m w = (Raise e, w1) ∧ h e w1 = (Return a, w').
Proof.
  unfold try_except. destruct (m w) as [[x|e] w1]; [left | right]; eauto.
Qed.

Lemma readonly_ret {A} (a : A) : readonly (mret a).
Proof. by intros w. Qed.

Lemma readonly_raise {A} (e : exn) : readonly (raise (A:=A) e).
Proof. by intros w. Qed.

Lemma readonly_lift {A} (r : result A) : readonly (lift r).
Proof. by intros w. Qed.

Lemma readonly_gets {A} (f : World → A) : readonly (gets f).
Proof. by intros w. Qed.

Lemma readonly_query {A} (f : models.Table → result A) : readonly (query f).
Proof. by intros w. Qed.

Lemma readonly_bind {A B} (m : M A) (f : A → M B) :
  readonly m → (∀ a, readonly (f a)) → readonly (m ≫= f).
Proof.
  intros Hm Hf w. rewrite bind_run. specialize (Hm w).
  destruct (m w) as [[a|e] w1]; simpl in *; subst; [apply Hf | done].
Qed.

Lemma readonly_try_except {A} (m : M A) (h : exn → M A) :
  readonly m → (∀ e, readonly (h e)) → readonly (try_except m h).
Proof.
  intros Hm Hh w. unfold try_except. specialize (Hm w).
  destruct (m w) as [[a|e] w1]; simpl in *; subst; [done | apply Hh].
Qed.

Create HintDb readonly.
#[export] Hint Resolve readonly_ret readonly_raise readonly_lift readonly_gets
  readonly_query : readonly.

Ltac readonly_steps :=
  repeat first
    [ solve [auto with readonly]
    | apply readonly_bind; [| intros ?]
    | apply readonly_try_except; [| intros ?] ].

Section facts.
Context `{Externals} `{Renderers}.

(** *** The history table *)

Lemma created_at_is_not_a_field :
  models.get_field models._meta_fields (py "created_at") = None.
Proof. vm_compute. reflexivity. Qed.

(** C2. The trim job orders the table by [created_at], a name the model
    does not declare (its timestamp column is [query_timestamp]): in every
    state of the history table the job raises [FieldError], returns no
    count and deletes nothing, so a table of more than 100 rows keeps all
    of them. *)
Theorem cleanup_old_queries_raises_FieldError (w : World) :
  tasks.cleanup_old_queries w = (Raise (FieldError (py "created_at")), w).
Proof.
  unfold tasks.cleanup_old_queries, try_except.
  rewrite bind_run. unfold query, models.order_by_desc.
  by rewrite created_at_is_not_a_field.
Qed.

Lemma create_needs_feels_like (kwargs : pydict) (now : Z) (t : models.Table) :
  kwargs !! py "feels_like" = None →
  ∃ e, models.create kwargs now t = Raise e.
Proof.
  intros Hnone. unfold models.create.
  destruct (bool_decide _); [| eauto].
  destruct (bool_decide _); [| eauto].
  assert (models.field_value kwargs (py "feels_like") models.FloatField_prep None
          = Return None) as Hfield
    by (unfold models.field_value; by rewrite Hnone).
  rewrite Hfield.
  repeat match goal with
    | |- ∃ e, (?m ≫= _) = Raise e =>
        destruct m as [?|?];
        cbn [mbind result_mbind result_bind models.stored models.not_null];
        [| eauto]
    end.
  eauto.
Qed.

(** C5. The persistence job creates the row from six columns only
    ([city], [country], [temperature], [description], [ip_address],
    [user_agent]); the model declares [feels_like], [humidity] and
    [pressure] without default and without [null=True], so the insertion
    is refused: for every invocation the job raises, no history entry is
    appended and no trim job is enqueued. *)
Theorem save_weather_query_async_appends_nothing
    (city : pystr) (country : option pystr) (weather_data : pydict)
    (ip_address user_agent : option pystr) (w : World) :
  ∃ e, tasks.save_weather_query_async city country weather_data ip_address user_agent w
       = (Raise e, w).
Proof.
  unfold tasks.save_weather_query_async, try_except.
  rewrite bind_run. cbn [gets]. rewrite bind_run. unfold execute.
  match goal with
  | |- context [models.create ?kwargs ?now ?t] =>
      destruct (create_needs_feels_like kwargs now t) as [e He];
      [ by vm_compute | rewrite He ]
  end.
  by exists e.
Qed.

(** *** The cache key *)

(** C4. The key is [weather:] followed by the lower-cased city and, with a
    country present (a non-empty string, the test the code makes), by a
    colon and the lower-cased country. So the key depends on the city and
    the country only through their lower-cased forms: two spellings that
    differ in case give one key; conversely one key means one lower-cased
    city for a given country, and one lower-cased country for a given city.
    And with a country present the key differs from the key of the same
    city without country. *)
Theorem make_cache_key_case_folded_and_country_distinct
    (city city' : pystr) (country country' : option pystr) :
  services._make_cache_key city country
  = py "weather:" ++ str_lower city
    ++ (if truthy country then py ":" ++ str_lower (default [] country) else [])
  ∧ (str_lower city = str_lower city' →
     truthy country = truthy country' →
     str_lower (default [] country) = str_lower (default [] country') →
     services._make_cache_key city country = services._make_cache_key city' country')
  ∧ (truthy country = truthy country' →
     str_lower (default [] country) = str_lower (default [] country') →
     services._make_cache_key city country = services._make_cache_key city' country' →
     str_lower city = str_lower city')
  ∧ (truthy country = true →
     truthy country' = true →
     str_lower city = str_lower city' →
     services._make_cache_key city country = services._make_cache_key city' country' →
     str_lower (default [] country) = str_lower (default [] country'))
  ∧ (truthy country = true →
     services._make_cache_key city country ≠ services._make_cache_key city None).
Proof.
  unfold services._make_cache_key. repeat split.
  - destruct (truthy country); [done | by rewrite app_nil_r].
  - intros -> <- ->. done.
  - intros <- ->. destruct (truthy country); intros Heq.
    + apply app_inv_head in Heq. by apply app_inv_tail in Heq.
    + by apply app_inv_head in Heq.
  - intros -> -> -> Heq. by do 3 apply app_inv_head in Heq.
  - intros ->. cbn [truthy]. intros Heq.
    apply (f_equal length) in Heq. rewrite !length_app in Heq.
    change (length (py ":")) with 1%nat in Heq. lia.
Qed.

(** An empty country is treated as no country. *)
Lemma make_cache_key_empty_country (city : pystr) :
  services._make_cache_key city (Some []) = services._make_cache_key city None.
Proof. reflexivity. Qed.

(** *** Lookups served from the cache *)

Lemma cache_get_run (key : pystr) (w : World) :
  cache_get key w = ((cache_get key w).1, w).
Proof. reflexivity. Qed.

Lemma get_weather_hit (self : services.WeatherService) (city : pystr)
    (country ip_address user_agent : option pystr) (w : World) (stored : pydict) :
  (cache_get (services._make_cache_key city country) w).1 = Return (Some stored) →
  stored ≠ ∅ →
  services.get_weather self city country ip_address user_agent w
  = (Return (<[py "cached" := PBool true]> stored), w).
Proof.
  intros Hget Hne. unfold services.get_weather. cbv zeta.
  rewrite bind_run, cache_get_run, Hget.
  by rewrite bool_decide_eq_true_2.
Qed.

(** C10. On a cache hit the lookup returns the stored record with [cached]
    set to true and every other field as stored; the environment is left
    as it was. *)
Theorem get_weather_cache_hit_changes_only_cached
    (self : services.WeatherService) (city : pystr)
    (country ip_address user_agent : option pystr) (w : World) (stored : pydict) :
  (cache_get (services._make_cache_key city country) w).1 = Return (Some stored) →
  stored ≠ ∅ →
  ∃ record,
    services.get_weather self city country ip_address user_agent w = (Return record, w)
    ∧ record !! py "cached" = Some (PBool true)
    ∧ ∀ field, field ≠ py "cached" → record !! field = stored !! field.
Proof.
  intros Hget Hne. eexists. split; [by apply get_weather_hit |].
  split; [apply lookup_insert_eq |].
  intros field Hfield. by apply lookup_insert_ne.
Qed.

(** *** The provider client *)

Lemma readonly_raise_for_status (r : Response) : readonly (raise_for_status r).
Proof. unfold raise_for_status. case_bool_decide; auto with readonly. Qed.

Lemma readonly_parse_weather_data (data : pyval) :
  readonly (services._parse_weather_data data).
Proof.
  unfold services._parse_weather_data. readonly_steps.
  match goal with e : exn |- _ => destruct e end; auto with readonly.
Qed.

#[local] Hint Resolve readonly_raise_for_status readonly_parse_weather_data
  : readonly.

(** What the provider client does once the request has been sent. *)
Lemma readonly_after_request (city : pystr) (response : Response) :
  readonly
    (try_except
       (if bool_decide (status_code response = 404) then
          raise (ValueError (py "Cidade '" ++ city ++ py "' não encontrada"))
        else if bool_decide (status_code response = 401) then
          raise (ValueError (py "API key inválida"))
        else
          _ ← raise_for_status response;
          data ← lift (json response);
          services._parse_weather_data data)
       (λ e,
          match e with
          | Timeout => raise (ValueError (py "Timeout ao buscar dados meteorológicos"))
          | ConnectionError => raise (ValueError (py "Erro de conexão com a API"))
          | RequestException msg =>
              raise (ValueError (py "Erro ao buscar dados: " ++ msg))
          | _ => raise e
          end)).
Proof.
  apply readonly_try_except.
  - repeat case_bool_decide; readonly_steps.
  - intros []; auto with readonly.
Qed.

(** The provider client changes nothing but the log of requests sent, to
    which it adds at most its one request. *)
Lemma fetch_from_api_effect (self : services.WeatherService) (city : pystr)
    (country : option pystr) (w : World) :
  let w1 := (services._fetch_from_api self city country w).2 in
  w1 = w ∨ w1 = set_sent (sent w ++ [services.params self city country]) w.
Proof.
  unfold services._fetch_from_api.
  destruct (negb (truthy (services.api_key self))); [by left |].
  right. cbv zeta.
  set (w' := set_sent _ w).
  unfold try_except at 1. rewrite bind_run. unfold requests_get. fold w'.
  destruct (network w _ _) as [response|e].
  - pose proof (readonly_after_request city response w') as Hro.
    unfold try_except at 1 in Hro. exact Hro.
  - by destruct e.
Qed.

Lemma fetch_from_api_preserves (self : services.WeatherService) (city : pystr)
    (country : option pystr) (w : World) :
  let w1 := (services._fetch_from_api self city country w).2 in
  cache w1 = cache w ∧ broker w1 = broker w ∧ table w1 = table w
  ∧ clock w1 = clock w.
Proof.
  cbv zeta. by destruct (fetch_from_api_effect self city country w) as [-> | ->].
Qed.

(** A record the parser returns has its twelve fields; in particular it
    is not the empty [dict]. *)
Lemma parse_weather_data_Return (data : pyval) (w w' : World) (record : pydict) :
  services._parse_weather_data data w = (Return record, w') →
  is_Some (record !! py "city").
Proof.
  unfold services._parse_weather_data. intros Hrun.
  apply try_except_Return_inv in Hrun as [Hrun | (e & w1 & _ & Hh)];
    [| by destruct e].
  repeat (apply bind_Return_inv in Hrun as (? & ? & _ & Hrun)).
  injection Hrun as <- _. eexists. apply lookup_insert_eq.
Qed.

Lemma fetch_from_api_Return (self : services.WeatherService) (city : pystr)
    (country : option pystr) (w w1 : World) (record : pydict) :
  services._fetch_from_api self city country w = (Return record, w1) →
  record ≠ ∅.
Proof.
  unfold services._fetch_from_api.
  destruct (negb (truthy (services.api_key self))); [discriminate |].
  cbv zeta. intros Hrun.
  apply try_except_Return_inv in Hrun as [Hrun | (e & w2 & _ & Hh)];
    [| by destruct e].
  apply bind_Return_inv in Hrun as (response & w2 & _ & Hrun).
  repeat case_bool_decide; try discriminate.
  apply bind_Return_inv in Hrun as (? & ? & _ & Hrun).
  apply bind_Return_inv in Hrun as (data & ? & _ & Hrun).
  apply parse_weather_data_Return in Hrun as [v Hv].
  intros ->. by rewrite lookup_empty in Hv.
Qed.

(** *** Cache-aside lookups *)

Lemma init_run (w : World) :
  services.__init__ w
  = (Return {| services.api_key := OPENWEATHER_API_KEY w;
               services.base_url := py "https://api.openweathermap.org/data/2.5/weather";
               services.cache_timeout := 600 |}, w).
Proof. reflexivity. Qed.

(** A lookup that misses the cache: the provider client runs, and what
    follows depends on its outcome. *)
Lemma get_weather_miss (self : services.WeatherService) (city : pystr)
    (country ip_address user_agent : option pystr) (w : World) :
  (cache_get (services._make_cache_key city country) w).1 = Return None →
  services.get_weather self city country ip_address user_agent w
  = match services._fetch_from_api self city country w with
    | (Return weather_data, w1) =>
        let w2 :=
          set_cache (<[services._make_cache_key city country
                       := (weather_data, clock w1 + services.cache_timeout self)]>
                       (cache w1)) w1 in
        (Return (<[py "cached" := PBool false]> weather_data),
         if truthy ip_address
         then set_broker
                (broker w2 ++ [save_weather_query_async_job
                                 city country weather_data ip_address user_agent]) w2
         else w2)
    | (Raise e, w1) => (Raise e, w1)
    end.
Proof.
  intros Hget. unfold services.get_weather. cbv zeta.
  rewrite bind_run, cache_get_run, Hget, bind_run.
  destruct (services._fetch_from_api self city country w) as [[weather_data|e] w1];
    [| done].
  rewrite bind_run. cbn [cache_set modify]. rewrite bind_run.
  by destruct (truthy ip_address).
Qed.

(** C1. A lookup that misses the cache and whose fetch succeeds returns
    the record with [cached] false; from then on, and as long as fewer
    than 600 time units have passed, every lookup whose key is the same
    returns the record with [cached] true and leaves the environment as it
    is: no request is sent to the provider and no job is enqueued. *)
Theorem get_weather_fresh_then_cached
    (self : services.WeatherService) (city : pystr)
    (country ip_address user_agent : option pystr) (w w1 : World) (record : pydict) :
  (services.__init__ w).1 = Return self →
  (cache_get (services._make_cache_key city country) w).1 = Return None →
  services._fetch_from_api self city country w = (Return record, w1) →
  ∃ fresh w2,
    services.get_weather self city country ip_address user_agent w = (Return fresh, w2)
    ∧ fresh !! py "cached" = Some (PBool false)
    ∧ ∀ (later : Z) (city' : pystr) (country' ip_address' user_agent' : option pystr),
        services._make_cache_key city' country' = services._make_cache_key city country →
        later < clock w + 600 →
        ∃ again w3,
          services.get_weather self city' country' ip_address' user_agent'
            (set_clock later w2) = (Return again, w3)
          ∧ again !! py "cached" = Some (PBool true)
          ∧ sent w3 = sent w2
          ∧ broker w3 = broker w2
          ∧ w3 = set_clock later w2.
Proof.
  intros Hself Hmiss Hfetch.
  assert (services.cache_timeout self = 600) as Htimeout
    by (rewrite init_run in Hself; by injection Hself as <-).
  pose proof (fetch_from_api_preserves self city country w) as Hsame.
  rewrite Hfetch in Hsame. cbn in Hsame. destruct Hsame as (_ & _ & _ & Hclock).
  pose proof (fetch_from_api_Return _ _ _ _ _ _ Hfetch) as Hne.
  rewrite get_weather_miss by done. rewrite Hfetch. cbv zeta.
  do 2 eexists. split; [reflexivity |]. split; [apply lookup_insert_eq |].
  intros later city' country' ip_address' user_agent' Hkey Hlater.
  exists (<[py "cached" := PBool true]> record). eexists.
  split; [| split; [apply lookup_insert_eq |]].
  - apply get_weather_hit; [| done].
    rewrite Hkey. unfold cache_get, gets. cbn [fst].
    replace (cache (set_clock later _) !! _)
      with (Some (record, clock w1 + 600)).
    + rewrite bool_decide_eq_true_2; [done |].
      destruct (truthy ip_address); cbn; lia.
    + rewrite Htimeout.
      destruct (truthy ip_address); cbn; by rewrite lookup_insert_eq.
  - done.
Qed.

(** A lookup whose fetch fails raises the exception of the fetch, stores
    nothing in the cache, enqueues nothing and leaves the history table as
    it is. *)
Lemma get_weather_failed_fetch (self : services.WeatherService) (city : pystr)
    (country ip_address user_agent : option pystr) (w w1 : World) (e : exn) :
  (cache_get (services._make_cache_key city country) w).1 = Return None →
  services._fetch_from_api self city country w = (Raise e, w1) →
  services.get_weather self city country ip_address user_agent w = (Raise e, w1)
  ∧ cache w1 = cache w ∧ broker w1 = broker w ∧ table w1 = table w.
Proof.
  intros Hmiss Hfetch. rewrite get_weather_miss by done. rewrite Hfetch.
  pose proof (fetch_from_api_preserves self city country w) as Hsame.
  rewrite Hfetch in Hsame. cbn in Hsame. by destruct Hsame as (? & ? & ? & _).
Qed.

(** *** Parsing the provider payload *)

(** The payload of the test suite parses into the twelve-field record. *)
Lemma parse_mock_api_response (w : World) :
  services._parse_weather_data (PDict examples.mock_api_response) w
  = (Return (list_to_map [
       (py "city", PStr (py "São Paulo"));
       (py "country", PStr (py "BR"));
       (py "temperature", PFloat (51 # 2));
       (py "feels_like", PFloat (136 # 5));
       (py "humidity", PInt 65);
       (py "pressure", PInt 1013);
       (py "description", PStr (py "poucas nuvens"));
       (py "icon", PStr (py "02d"));
       (py "wind_speed", PFloat (7 # 2));
       (py "wind_direction", PInt 180);
       (py "visibility", PInt 10000);
       (py "timestamp", PStr (isoformat (clock w)))]), w).
Proof. reflexivity. Qed.

(** A missing key is reported by name and no default takes its place. *)
Lemma parse_no_description_response (w : World) :
  services._parse_weather_data (PDict examples.no_description_response) w
  = (Raise (ValueError (py "Dados da API incompletos: 'description'")), w).
Proof. reflexivity. Qed.

(** The optional wind direction and visibility default to 0. *)
Lemma parse_no_optional_response (w : World) :
  ∃ record,
    services._parse_weather_data (PDict examples.no_optional_response) w
    = (Return record, w)
    ∧ record !! py "wind_direction" = Some (PInt 0)
    ∧ record !! py "visibility" = Some (PInt 0).
Proof. eexists. split; [reflexivity |]. by vm_compute. Qed.

(** Whenever the parser returns a record, the required [city] is the
    payload's [name] as it came, and an absent optional field is 0. *)
Lemma parse_weather_data_fields (d : pydict) (w w' : World) (record : pydict) :
  services._parse_weather_data (PDict d) w = (Return record, w') →
  record !! py "city" = d !! py "name"
  ∧ (d !! py "visibility" = None → record !! py "visibility" = Some (PInt 0))
  ∧ (∀ wind, d !! py "wind" = Some (PDict wind) → wind !! py "deg" = None →
       record !! py "wind_direction" = Some (PInt 0)).
Proof.
  unfold services._parse_weather_data. intros Hrun.
  apply try_except_Return_inv in Hrun as [Hrun | (e & w1 & _ & Hh)];
    [| by destruct e].
  apply bind_Return_inv in Hrun as (v_city & ? & Hcity & Hrun).
  do 8 (apply bind_Return_inv in Hrun as (? & ? & _ & Hrun)).
  apply bind_Return_inv in Hrun as (v_direction & ? & Hdirection & Hrun).
  apply bind_Return_inv in Hrun as (v_visibility & ? & Hvisibility & Hrun).
  apply bind_Return_inv in Hrun as (? & ? & _ & Hrun).
  injection Hrun as <- _.
  unfold lift in *. cbn [getitem get_default] in *.
  split; [| split].
  - destruct (d !! py "name") as [name|]; [| discriminate].
    injection Hcity as <- _. by vm_compute.
  - intros Habsent. rewrite Habsent in Hvisibility.
    injection Hvisibility as <- _. by vm_compute.
  - intros wind Hwind Habsent. rewrite Hwind in Hdirection.
    cbn -[py] in Hdirection. rewrite Habsent in Hdirection.
    injection Hdirection as <- _. by vm_compute.
Qed.

(** C6. Only a missing key of a [dict] is turned into the error that names
    it. A payload whose [weather] list is empty lacks the required
    description and icon, and parsing it raises [IndexError], which is not
    the malformed-response [ValueError] and names no field. *)
Theorem parse_empty_weather_list_raises_IndexError (w : World) :
  services._parse_weather_data (PDict examples.empty_weather_response) w
  = (Raise IndexError, w).
Proof. reflexivity. Qed.

(** *** The lookup view *)

(** The view on valid parameters: the service is built from the settings
    and run; its record is rendered, its exception mapped to a status. *)
Lemma view_get_weather_valid (request : views.Request) (w : World)
    (city : pystr) (country : option pystr) :
  serializers.WeatherRequestSerializer (views.GET request) = inr (city, country) →
  ∀ self, (services.__init__ w).1 = Return self →
  views.get_weather request w
  = match services.get_weather self city country (views.get_client_ip request)
            (Some (default [] (views.META request !! py "HTTP_USER_AGENT"))) w with
    | (Return record, w1) =>
        (match WeatherResponseSerializer_data record with
         | Return rendered =>
             Return {| views.data := rendered; views.status := views.HTTP_200_OK |}
         | Raise e => Return (error_response e)
         end, w1)
    | (Raise e, w1) => (Return (error_response e), w1)
    end.
Proof.
  intros Hvalid self Hself. rewrite init_run in Hself. injection Hself as <-.
  unfold views.get_weather, try_except. rewrite Hvalid.
  rewrite bind_run, init_run, bind_run.
  destruct (services.get_weather _ _ _ _ _ w) as [[record|e] w1]; [| by destruct e].
  rewrite bind_run. unfold lift.
  destruct (WeatherResponseSerializer_data record) as [rendered|e]; [done |].
  by destruct e.
Qed.

Lemma view_get_weather_invalid (request : views.Request) (w : World)
    (errors : pydict) :
  serializers.WeatherRequestSerializer (views.GET request) = inl errors →
  views.get_weather request w
  = (Return {| views.data := PDict (list_to_map [
                 (py "error", PStr (py "Parâmetros inválidos"));
                 (py "details", PDict errors)]);
               views.status := views.HTTP_400_BAD_REQUEST |}, w).
Proof.
  intros Hinvalid. unfold views.get_weather, try_except. by rewrite Hinvalid.
Qed.

(** The provider client with a credential: the request is sent and its
    outcome decides. *)
Lemma fetch_from_api_sends (self : services.WeatherService) (city : pystr)
    (country : option pystr) (w : World) :
  truthy (services.api_key self) = true →
  let w1 := set_sent (sent w ++ [services.params self city country]) w in
  match network w (services.base_url self) (services.params self city country) with
  | Raise Timeout =>
      services._fetch_from_api self city country w
      = (Raise (ValueError (py "Timeout ao buscar dados meteorológicos")), w1)
  | Raise ConnectionError =>
      services._fetch_from_api self city country w
      = (Raise (ValueError (py "Erro de conexão com a API")), w1)
  | Raise (RequestException msg) =>
      services._fetch_from_api self city country w
      = (Raise (ValueError (py "Erro ao buscar dados: " ++ msg)), w1)
  | Raise e => services._fetch_from_api self city country w = (Raise e, w1)
  | Return response =>
      if bool_decide (status_code response = 404) then
        services._fetch_from_api self city country w
        = (Raise (ValueError (py "Cidade '" ++ city ++ py "' não encontrada")), w1)
      else if bool_decide (status_code response = 401) then
        services._fetch_from_api self city country w
        = (Raise (ValueError (py "API key inválida")), w1)
      else True
  end.
Proof.
  intros Hkey. cbv zeta. unfold services._fetch_from_api. rewrite Hkey. cbn [negb].
  unfold try_except. rewrite bind_run. unfold requests_get.
  destruct (network w _ _) as [response|e]; [| by destruct e].
  by repeat case_bool_decide.
Qed.

(** C7. For a request with valid parameters that misses the cache, with a
    credential configured: when the provider answers 404 the view answers
    400 with the message that the city was not found; on 401, 400 with the
    message that the key is invalid; on a timeout, 400 with the timeout
    message. *)
Theorem provider_errors_surface_as_400 (request : views.Request) (w : World)
    (city : pystr) (country : option pystr) (self : services.WeatherService) :
  serializers.WeatherRequestSerializer (views.GET request) = inr (city, country) →
  (services.__init__ w).1 = Return self →
  (cache_get (services._make_cache_key city country) w).1 = Return None →
  truthy (services.api_key self) = true →
  let answer :=
    network w (services.base_url self) (services.params self city country) in
  (∀ response, answer = Return response → status_code response = 404 →
     (views.get_weather request w).1
     = Return (bad_request (py "Cidade '" ++ city ++ py "' não encontrada")))
  ∧ (∀ response, answer = Return response → status_code response = 401 →
     (views.get_weather request w).1 = Return (bad_request (py "API key inválida")))
  ∧ (answer = Raise Timeout →
     (views.get_weather request w).1
     = Return (bad_request (py "Timeout ao buscar dados meteorológicos"))).
Proof.
  intros Hvalid Hself Hmiss Hkey. cbv zeta.
  pose proof (fetch_from_api_sends self city country w Hkey) as Hfetch.
  cbv zeta in Hfetch.
  rewrite (view_get_weather_valid _ _ _ _ Hvalid self Hself).
  rewrite get_weather_miss by done.
  split; [| split].
  - intros response Hanswer Hstatus. rewrite Hanswer in Hfetch.
    rewrite bool_decide_eq_true_2 in Hfetch by done. by rewrite Hfetch.
  - intros response Hanswer Hstatus. rewrite Hanswer in Hfetch.
    rewrite bool_decide_eq_false_2 in Hfetch by lia.
    rewrite bool_decide_eq_true_2 in Hfetch by done. by rewrite Hfetch.
  - intros Hanswer. rewrite Hanswer in Hfetch. by rewrite Hfetch.
Qed.

(** C3. With the payload whose [weather] list is empty the provider
    client fails, and the lookup propagates [IndexError]: not a domain
    error, so the view answers 500 where a failed provider call is to give
    400. *)
Theorem get_weather_empty_weather_list_is_not_a_domain_error :
  let w := examples.world (Some (py "key")) (examples.ok examples.empty_weather_response) in
  ∃ self w1,
    services.__init__ w = (Return self, w)
    ∧ services.get_weather self (py "São Paulo") (Some (py "BR"))
        (Some (py "10.0.0.1")) None w
      = (Raise IndexError, w1)
    ∧ cache w1 = cache w ∧ broker w1 = broker w
    ∧ (views.get_weather examples.lookup_request w).1 = Return internal_error.
Proof.
  cbv zeta. do 2 eexists. split; [apply init_run |].
  split; [by rewrite get_weather_miss by done |].
  split; [done |]. split; [done |].
  erewrite view_get_weather_valid; [| reflexivity | reflexivity].
  by rewrite get_weather_miss by done.
Qed.

(** C9. With no credential configured: a request with invalid parameters
    is answered 400 with the validation errors; a request with valid
    parameters that misses the cache is answered 400 with the
    configuration error; in both cases the environment is left as it was,
    so no request is sent to the provider. *)
Theorem unconfigured_credential_is_400_on_miss (request : views.Request) (w : World) :
  truthy (OPENWEATHER_API_KEY w) = false →
  match serializers.WeatherRequestSerializer (views.GET request) with
  | inl errors =>
      views.get_weather request w
      = (Return {| views.data := PDict (list_to_map [
                     (py "error", PStr (py "Parâmetros inválidos"));
                     (py "details", PDict errors)]);
                   views.status := 400 |}, w)
  | inr (city, country) =>
      (cache_get (services._make_cache_key city country) w).1 = Return None →
      views.get_weather request w
      = (Return (bad_request (py "API key do OpenWeatherMap não configurada")), w)
  end.
Proof.
  intros Hkey.
  destruct (serializers.WeatherRequestSerializer _) as [errors|[city country]] eqn:Hs.
  - by apply view_get_weather_invalid.
  - intros Hmiss.
    erewrite view_get_weather_valid; [| done | by rewrite init_run].
    rewrite get_weather_miss by done.
    unfold services._fetch_from_api. cbn [services.api_key]. by rewrite Hkey.
Qed.

(** *** The history view *)

Lemma Sorted_weaken {A} (R R' : relation A) (l : list A) :
  (∀ x y, R x y → R' x y) → Sorted R l → Sorted R' l.
Proof.
  intros Himpl. induction 1 as [| x l _ IH Hhd]; constructor; [done |].
  destruct Hhd; constructor; auto.
Qed.

#[local] Instance by_timestamp_total :
  Total (λ a b : models.WeatherQuery,
           Is_true (models.sql_le (models.SInt (models.query_timestamp b))
                                  (models.SInt (models.query_timestamp a)))).
Proof.
  intros a b. cbn [models.sql_le]. rewrite !bool_decide_spec. lia.
Qed.

(** Ordering by [-query_timestamp] resolves and gives the rows of the
    table, newest first. *)
Lemma order_by_query_timestamp (t : models.Table) :
  ∃ ordered,
    models.order_by_desc (py "query_timestamp") t = Return ordered
    ∧ ordered ≡ₚ models.rows t ∧ newest_first ordered.
Proof.
  eexists. split; [reflexivity |]. split; [apply merge_sort_Permutation |].
  eapply Sorted_weaken; [| apply Sorted_merge_sort, by_timestamp_total].
  intros a b. cbn [models.sql_le]. by rewrite bool_decide_spec.
Qed.

Lemma newest_page_length (n : nat) (rows entries : list models.WeatherQuery) :
  newest_page n rows entries →
  (length entries ≤ n)%nat ∧ (rows = [] → entries = []).
Proof.
  intros (ordered & Hperm & _ & ->). split; [rewrite length_take; lia |].
  intros ->. apply Permutation_nil_r in Hperm as ->. by rewrite take_nil.
Qed.

(** The part of the history view that follows the reading of [limit]. *)
Lemma history_page_run (limit : option Z) (w : World) :
  0 ≤ default 10 limit →
  ∃ entries,
    (weather_svc ← services.__init__;
     history ← services.get_weather_history weather_svc limit;
     mret {| views.data := PList (WeatherQuerySerializer_data <$> history);
             views.status := views.HTTP_200_OK |}) w
    = (Return {| views.data := PList (WeatherQuerySerializer_data <$> entries);
                 views.status := 200 |}, w)
    ∧ newest_page (Z.to_nat (default 10 limit)) (models.rows (table w)) entries.
Proof.
  intros Hlimit.
  destruct (order_by_query_timestamp (table w)) as (ordered & Horder & Hperm & Hsorted).
  exists (take (Z.to_nat (default 10 limit)) ordered). split; [| by exists ordered].
  rewrite bind_run, init_run, bind_run.
  unfold services.get_weather_history. cbv zeta.
  rewrite bind_run. unfold query. rewrite Horder.
  unfold lift, models.slice. by rewrite bool_decide_eq_true_2.
Qed.

(** C8. The history view: with no [limit], or an empty one, it returns at
    most 10 entries; a non-empty [limit] that [int()] refuses gives 400; a
    [limit] of 0 or less gives 400; a [limit] above 100 is served as 100;
    what is served is a list of the newest rows of the table, newest
    first, empty when the table is empty; the environment is left as it
    was. *)
Theorem get_history_limit (request : views.Request) (w : World) :
  let limit_param := views.GET request !! py "limit" in
  let serves (n : Z) :=
    ∃ entries,
      views.get_history request w
      = (Return {| views.data := PList (WeatherQuerySerializer_data <$> entries);
                   views.status := 200 |}, w)
      ∧ newest_page (Z.to_nat n) (models.rows (table w)) entries
      ∧ Z.of_nat (length entries) ≤ n
      ∧ (models.rows (table w) = [] → entries = []) in
  (truthy limit_param = false → serves 10)
  ∧ (∀ n, truthy limit_param = true →
       py_int (PStr (default [] limit_param)) = Return n →
       (n ≤ 0 →
        views.get_history request w
        = (Return (bad_request (py "Limit deve ser positivo")), w))
       ∧ (0 < n ≤ 100 → serves n)
       ∧ (100 < n → serves 100))
  ∧ (∀ msg, truthy limit_param = true →
       py_int (PStr (default [] limit_param)) = Raise (ValueError msg) →
       views.get_history request w
       = (Return (bad_request (py "Limit deve ser um número")), w)).
Proof.
  cbv zeta.
  assert (∀ limit : option Z, 0 ≤ default 10 limit →
    ∃ entries,
      try_except
        (weather_svc ← services.__init__;
         history ← services.get_weather_history weather_svc limit;
         mret {| views.data := PList (WeatherQuerySerializer_data <$> history);
                 views.status := views.HTTP_200_OK |})
        (λ _, mret internal_error) w
      = (Return {| views.data := PList (WeatherQuerySerializer_data <$> entries);
                   views.status := 200 |}, w)
      ∧ newest_page (Z.to_nat (default 10 limit)) (models.rows (table w)) entries
      ∧ Z.of_nat (length entries) ≤ default 10 limit
      ∧ (models.rows (table w) = [] → entries = [])) as Hpage.
  { intros limit Hlimit.
    destruct (history_page_run limit w Hlimit) as (entries & Hrun & Hnewest).
    exists entries. unfold try_except. rewrite Hrun.
    destruct (newest_page_length _ _ _ Hnewest) as [Hlen Hnil].
    repeat split; [done | lia | done]. }
  unfold views.get_history. cbv zeta. split; [| split].
  - intros Hfalsy. rewrite Hfalsy. apply (Hpage None). done.
  - intros n Htruthy Hint. rewrite Htruthy.
    rewrite Hint. repeat split.
    + intros Hn. by rewrite bool_decide_eq_true_2.
    + intros Hn. rewrite bool_decide_eq_false_2 by lia.
      rewrite (bool_decide_eq_false_2 (n > 100)) by lia.
      apply (Hpage (Some n)). cbn. lia.
    + intros Hn. rewrite bool_decide_eq_false_2 by lia.
      rewrite (bool_decide_eq_true_2 (n > 100)) by lia.
      apply (Hpage (Some 100)). done.
  - intros msg Htruthy Hint. rewrite Htruthy. by rewrite Hint.
Qed.

End facts.

(** ** The statements at concrete inputs *)

Section instances.
#[local] Existing Instance Latin1.externals.
#[local] Existing Instance field_renderers.

(** The two spellings of São Paulo, BR give one key, which differs from
    the key of São Paulo without country. *)
Lemma make_cache_key_sao_paulo :
  services._make_cache_key (py "São Paulo") (Some (py "BR"))
  = services._make_cache_key (py "são paulo") (Some (py "br"))
  ∧ services._make_cache_key (py "São Paulo") (Some (py "BR"))
    ≠ services._make_cache_key (py "São Paulo") None.
Proof.
  destruct (make_cache_key_case_folded_and_country_distinct
              (py "São Paulo") (py "são paulo") (Some (py "BR")) (Some (py "br")))
    as (_ & Hsame & _ & _ & Hdistinct).
  split; [apply Hsame; reflexivity | apply Hdistinct; reflexivity].
Defined.

(** In the warm process the lookup of São Paulo, BR is a cache hit. *)
Lemma get_weather_cache_hit_sao_paulo :
  ∃ record,
    services.get_weather examples.service (py "São Paulo") (Some (py "BR"))
      (Some (py "10.0.0.1")) None
      (examples.warm_world (Some (py "key")) (Raise ConnectionError))
    = (Return record, examples.warm_world (Some (py "key")) (Raise ConnectionError))
    ∧ record !! py "cached" = Some (PBool true)
    ∧ ∀ field, field ≠ py "cached" →
               record !! field = examples.cached_record !! field.
Proof.
  apply get_weather_cache_hit_changes_only_cached; [reflexivity |].
  intros Hempty. apply (f_equal (λ d : pydict, d !! py "city")) in Hempty.
  vm_compute in Hempty. discriminate.
Defined.

(** In the cold process whose provider answers with the payload of the
    test suite, the lookup of São Paulo, BR is fresh and its repetitions
    are served from the cache. *)
Lemma get_weather_fresh_then_cached_sao_paulo :
  let w := examples.world (Some (py "key")) (examples.ok examples.mock_api_response) in
  ∃ fresh w2,
    services.get_weather examples.service (py "São Paulo") (Some (py "BR"))
      (Some (py "10.0.0.1")) None w = (Return fresh, w2)
    ∧ fresh !! py "cached" = Some (PBool false)
    ∧ ∀ (later : Z) (city' : pystr) (country' ip_address' user_agent' : option pystr),
        services._make_cache_key city' country'
        = services._make_cache_key (py "São Paulo") (Some (py "BR")) →
        later < clock w + 600 →
        ∃ again w3,
          services.get_weather examples.service city' country' ip_address' user_agent'
            (set_clock later w2) = (Return again, w3)
          ∧ again !! py "cached" = Some (PBool true)
          ∧ sent w3 = sent w2
          ∧ broker w3 = broker w2
          ∧ w3 = set_clock later w2.
Proof.
  cbv zeta.
  apply (get_weather_fresh_then_cached examples.service (py "São Paulo")
           (Some (py "BR")) (Some (py "10.0.0.1")) None
           (examples.world (Some (py "key")) (examples.ok examples.mock_api_response))
           (set_sent [services.params examples.service (py "São Paulo") (Some (py "BR"))]
              (examples.world (Some (py "key"))
                 (examples.ok examples.mock_api_response)))
           examples.parsed_record);
    reflexivity.
Defined.

(** The three provider failures at the lookup request for São Paulo, BR. *)
Lemma provider_errors_surface_as_400_sao_paulo :
  (views.get_weather examples.lookup_request
     (examples.world (Some (py "key")) (examples.status_only 404))).1
  = Return (bad_request (py "Cidade 'São Paulo' não encontrada"))
  ∧ (views.get_weather examples.lookup_request
       (examples.world (Some (py "key")) (examples.status_only 401))).1
    = Return (bad_request (py "API key inválida"))
  ∧ (views.get_weather examples.lookup_request
       (examples.world (Some (py "key")) (Raise Timeout))).1
    = Return (bad_request (py "Timeout ao buscar dados meteorológicos")).
Proof.
  assert (serializers.WeatherRequestSerializer (views.GET examples.lookup_request)
          = inr (py "São Paulo", Some (py "BR"))) as Hvalid
    by (vm_compute; reflexivity).
  split; [| split].
  - destruct (provider_errors_surface_as_400 examples.lookup_request
                (examples.world (Some (py "key")) (examples.status_only 404))
                (py "São Paulo") (Some (py "BR")) examples.service
                Hvalid eq_refl eq_refl eq_refl) as (Hthm & _ & _).
    exact (Hthm _ eq_refl eq_refl).
  - destruct (provider_errors_surface_as_400 examples.lookup_request
                (examples.world (Some (py "key")) (examples.status_only 401))
                (py "São Paulo") (Some (py "BR")) examples.service
                Hvalid eq_refl eq_refl eq_refl) as (_ & Hthm & _).
    exact (Hthm _ eq_refl eq_refl).
  - destruct (provider_errors_surface_as_400 examples.lookup_request
                (examples.world (Some (py "key")) (Raise Timeout))
                (py "São Paulo") (Some (py "BR")) examples.service
                Hvalid eq_refl eq_refl eq_refl) as (_ & _ & Hthm).
    exact (Hthm eq_refl).
Defined.

(** With no credential, the lookup request for São Paulo, BR in the cold
    process is answered with the configuration error. *)
Lemma unconfigured_credential_is_400_on_miss_sao_paulo :
  truthy (OPENWEATHER_API_KEY
            (examples.world None (examples.ok examples.mock_api_response))) = false
  ∧ views.get_weather examples.lookup_request
      (examples.world None (examples.ok examples.mock_api_response))
    = (Return (bad_request (py "API key do OpenWeatherMap não configurada")),
       examples.world None (examples.ok examples.mock_api_response)).
Proof.
  split; [reflexivity |].
  pose proof (unconfigured_credential_is_400_on_miss examples.lookup_request
                (examples.world None (examples.ok examples.mock_api_response)) eq_refl)
    as Hthm.
  assert (serializers.WeatherRequestSerializer (views.GET examples.lookup_request)
          = inr (py "São Paulo", Some (py "BR"))) as Hvalid
    by (vm_compute; reflexivity).
  rewrite Hvalid in Hthm. exact (Hthm eq_refl).
Defined.

(** With no credential, two requests that are not answered with the
    configuration error. With the record of São Paulo, BR still in the
    cache, the lookup returns that record and the request is answered 200:
    the credential is not consulted and nothing fails. And a request
    without a city is answered 400 with the errors of the validation,
    whose body is not that of the configuration error. *)
Lemma unconfigured_credential_other_answers :
  let warm := examples.warm_world None (Raise ConnectionError) in
  let cold := examples.world None (Raise ConnectionError) in
  let unconfigured := {|
    services.api_key := None;
    services.base_url := py "https://api.openweathermap.org/data/2.5/weather";
    services.cache_timeout := 600;
  |} in
  let invalid := {|
    views.data := PDict (list_to_map [
      (py "error", PStr (py "Parâmetros inválidos"));
      (py "details",
         PDict {[ py "city" := PList [PStr (py "This field is required.")] ]})]);
    views.status := 400;
  |} in
  truthy (OPENWEATHER_API_KEY warm) = false
  ∧ services.__init__ warm = (Return unconfigured, warm)
  ∧ services.get_weather unconfigured (py "São Paulo") (Some (py "BR"))
      (Some (py "10.0.0.1")) (Some []) warm
    = (Return (<[py "cached" := PBool true]> examples.cached_record), warm)
  ∧ views.get_weather examples.lookup_request warm
    = (Return {| views.data :=
                   PDict (<[py "cached" := PBool true]> examples.cached_record);
                 views.status := 200 |},
       warm)
  ∧ truthy (OPENWEATHER_API_KEY cold) = false
  ∧ views.get_weather examples.no_city_request cold = (Return invalid, cold)
  ∧ invalid ≠ bad_request (py "API key do OpenWeatherMap não configurada").
Proof.
  cbv zeta. repeat split; try (vm_compute; reflexivity).
  intros Heq.
  apply (f_equal (λ r, match views.data r with
                       | PDict body => body !! py "details"
                       | _ => None
                       end)) in Heq.
  vm_compute in Heq. discriminate Heq.
Qed.

(** The history view on a table of three rows, for different [limit]s. *)
Lemma get_history_limit_three_rows :
  let rows := [examples.row 1 10; examples.row 2 30; examples.row 3 20] in
  let w := examples.world_with_rows rows in
  let page entries :=
    (Return {| views.data := PList (WeatherQuerySerializer_data <$> entries);
               views.status := 200 |}, w) in
  (∃ entries,
     views.get_history (examples.history_request ∅) w = page entries
     ∧ newest_page 10 rows entries)
  ∧ (∃ entries,
       views.get_history (examples.history_request {[ py "limit" := py "2" ]}) w
       = page entries
       ∧ newest_page 2 rows entries)
  ∧ (∃ entries,
       views.get_history (examples.history_request {[ py "limit" := py "200" ]}) w
       = page entries
       ∧ newest_page 100 rows entries)
  ∧ views.get_history (examples.history_request {[ py "limit" := py "0" ]}) w
    = (Return (bad_request (py "Limit deve ser positivo")), w)
  ∧ views.get_history (examples.history_request {[ py "limit" := py "abc" ]}) w
    = (Return (bad_request (py "Limit deve ser um número")), w).
Proof.
  cbv zeta.
  set (w := examples.world_with_rows
              [examples.row 1 10; examples.row 2 30; examples.row 3 20]).
  split; [| split; [| split; [| split]]].
  - destruct (get_history_limit (examples.history_request ∅) w) as (Habsent & _ & _).
    destruct (Habsent eq_refl) as (entries & Hrun & Hpage & _). by exists entries.
  - destruct (get_history_limit
                (examples.history_request {[ py "limit" := py "2" ]}) w)
      as (_ & Hnumber & _).
    destruct (Hnumber 2 eq_refl eq_refl) as (_ & Hserved & _).
    destruct (Hserved ltac:(lia)) as (entries & Hrun & Hpage & _). by exists entries.
  - destruct (get_history_limit
                (examples.history_request {[ py "limit" := py "200" ]}) w)
      as (_ & Hnumber & _).
    destruct (Hnumber 200 eq_refl eq_refl) as (_ & _ & Hclamped).
    destruct (Hclamped ltac:(lia)) as (entries & Hrun & Hpage & _). by exists entries.
  - destruct (get_history_limit
                (examples.history_request {[ py "limit" := py "0" ]}) w)
      as (_ & Hnumber & _).
    destruct (Hnumber 0 eq_refl eq_refl) as (Hrefused & _).
    exact (Hrefused ltac:(lia)).
  - destruct (get_history_limit
                (examples.history_request {[ py "limit" := py "abc" ]}) w)
      as (_ & _ & Hrefused).
    exact (Hrefused _ eq_refl eq_refl).
Defined.

(** The history view with [limit] present and empty, which [int()]
    refuses: the answer is 200 with the two rows of the table, newest
    first, not 400. *)
Lemma empty_limit_is_served :
  let w := examples.world_with_rows [examples.row 1 10; examples.row 2 30] in
  views.GET (examples.history_request {[ py "limit" := [] ]}) !! py "limit"
  = Some []
  ∧ py_int (PStr []) = Raise (ValueError (py "invalid literal for int()"))
  ∧ views.get_history (examples.history_request {[ py "limit" := [] ]}) w
    = (Return {| views.data :=
                   PList (WeatherQuerySerializer_data
                            <$> [examples.row 2 30; examples.row 1 10]);
                 views.status := 200 |}, w).
Proof. cbv zeta. split; [| split]; vm_compute; reflexivity. Qed.

(** The trim job on a table of 150 rows: nothing is deleted. *)
Lemma cleanup_old_queries_150_rows :
  let rows := (λ i : nat, examples.row (Z.of_nat i) (Z.of_nat i)) <$> seq 1 150 in
  tasks.cleanup_old_queries (examples.world_with_rows rows)
  = (Raise (FieldError (py "created_at")), examples.world_with_rows rows)
  ∧ length (models.rows (table (examples.world_with_rows rows))) = 150%nat.
Proof. cbv zeta. split; vm_compute; reflexivity. Qed.

(** The persistence job for the lookup of São Paulo, BR from 10.0.0.1: the
    insertion is refused for the missing [feels_like]; the table stays
    empty and no trim job is enqueued. *)
Lemma save_weather_query_async_sao_paulo :
  let w := examples.world (Some (py "key")) (examples.ok examples.mock_api_response) in
  tasks.save_weather_query_async (py "São Paulo") (Some (py "BR"))
    examples.parsed_record (Some (py "10.0.0.1")) None w
  = (Raise (IntegrityError (py "feels_like")), w).
Proof. cbv zeta. vm_compute. reflexivity. Qed.

End instances.

(** * Further properties *)

(** ** Trimming *)

Lemma lstrip_starts_clean (s : pystr) : starts_clean (lstrip s).
Proof.
  induction s as [| c r IH]; [done |]. cbn [lstrip].
  destruct (isspace c) eqn:Hc; [done | exact Hc].
Qed.

Lemma lstrip_clean (s : pystr) : starts_clean s → lstrip s = s.
Proof. destruct s as [| c r]; [done |]. cbn. by intros ->. Qed.

Lemma lstrip_suffix (s : pystr) : ∃ spaces, s = spaces ++ lstrip s.
Proof.
  induction s as [| c r [spaces IH]]; [by exists [] |]. cbn [lstrip].
  destruct (isspace c); [| by exists []].
  exists (c :: spaces). cbn. by rewrite <- IH.
Qed.

Lemma starts_clean_prefix (a b : pystr) :
  a ≠ [] → starts_clean (a ++ b) → starts_clean a.
Proof. by destruct a. Qed.

Lemma strip_trimmed (s : pystr) : trimmed (strip s).
Proof.
  unfold trimmed, strip. rewrite reverse_involutive.
  split; [| apply lstrip_starts_clean].
  set (t := lstrip s). set (u := lstrip (reverse t)).
  destruct (decide (u = [])) as [-> | Hu]; [done |].
  destruct (lstrip_suffix (reverse t)) as [spaces Hsuffix]. fold u in Hsuffix.
  apply (f_equal reverse) in Hsuffix.
  rewrite reverse_involutive, reverse_app in Hsuffix.
  apply (starts_clean_prefix _ (reverse spaces)).
  - intros Hnil. apply (f_equal reverse) in Hnil.
    by rewrite reverse_involutive in Hnil.
  - rewrite <- Hsuffix. apply lstrip_starts_clean.
Qed.

Lemma strip_of_trimmed (s : pystr) : trimmed s → strip s = s.
Proof.
  intros [Hstart Hend]. unfold strip.
  by rewrite (lstrip_clean s), (lstrip_clean (reverse s)), reverse_involutive.
Qed.

Lemma strip_strip (s : pystr) : strip (strip s) = strip s.
Proof. apply strip_of_trimmed, strip_trimmed. Qed.

Section more_facts.
Context `{Externals} `{Renderers}.

(** ** The request serializer *)

(** X1. [validate_city] accepts a value exactly when it has at least two
    characters once trimmed, and what it returns is the trimmed value:
    white space neither at its start nor at its end, trimming it again
    changes nothing. *)
Theorem validate_city_trims (value : pystr) :
  (∀ city, serializers.validate_city value = serializers.Valid city →
     city = strip value ∧ trimmed city ∧ strip city = city ∧ (2 ≤ length city)%nat)
  ∧ ((length (strip value) < 2)%nat →
     ∃ messages, serializers.validate_city value = serializers.Invalid messages)
  ∧ ((2 ≤ length (strip value))%nat →
     serializers.validate_city value = serializers.Valid (strip value)).
Proof.
  unfold serializers.validate_city. split; [| split].
  - intros city. repeat case_bool_decide; try discriminate.
    intros [= <-]. pose proof (strip_trimmed value) as Htrimmed.
    split; [done |]. split; [done |]. split; [by apply strip_of_trimmed | lia].
  - intros Hshort. repeat case_bool_decide; eauto. lia.
  - intros Hlong. repeat case_bool_decide; try done.
    + destruct (strip value); [cbn in Hlong; lia | done].
    + lia.
Qed.

(** The two fields of the request serializer, case by case. *)
Lemma city_field_Valid (data : option pystr) (city : pystr) :
  serializers.city_field data = serializers.Valid city →
  ∃ raw, data = Some raw ∧ city = strip raw
         ∧ (2 ≤ length city)%nat ∧ (length city ≤ 100)%nat.
Proof.
  unfold serializers.city_field, serializers.CharField, serializers.validate_city.
  destruct data as [raw|]; [| discriminate]. cbn [negb andb].
  rewrite andb_false_r, !strip_strip.
  repeat case_bool_decide; cbn [app]; try discriminate.
  intros [= <-]. exists raw. repeat split; lia.
Qed.

Lemma city_field_Invalid (data : option pystr) :
  match data with
  | None => True
  | Some raw => (length (strip raw) < 2)%nat ∨ (100 < length (strip raw))%nat
  end →
  ∃ messages, serializers.city_field data = serializers.Invalid messages.
Proof.
  unfold serializers.city_field, serializers.CharField, serializers.validate_city.
  destruct data as [raw|]; [| by eauto]. cbn [negb andb].
  rewrite andb_false_r, !strip_strip. intros Hlength.
  repeat case_bool_decide; cbn [app]; eauto; lia.
Qed.

Lemma city_field_not_Skipped (data : option pystr) :
  serializers.city_field data ≠ serializers.Skipped.
Proof.
  unfold serializers.city_field, serializers.CharField, serializers.validate_city.
  destruct data as [raw|]; [| done]. cbn [negb andb]. rewrite andb_false_r.
  repeat case_bool_decide; cbn [app]; done.
Qed.

Lemma country_field_Valid (data : option pystr) (country : option pystr) :
  serializers.country_field data = serializers.Valid country →
  ∃ raw, data = Some raw ∧ country = Some (str_upper (strip raw))
         ∧ length (strip raw) = 2%nat.
Proof.
  unfold serializers.country_field, serializers.CharField,
    serializers.validate_country.
  destruct data as [raw|]; [| discriminate]. cbn [negb andb].
  rewrite andb_true_r.
  destruct (strip raw) as [| c r] eqn:Hstrip; cbn [truthy andb];
    repeat case_bool_decide; cbn [app]; try discriminate; try done.
  intros [= <-]. exists raw. rewrite Hstrip. repeat split. lia.
Qed.

Lemma country_field_Skipped (data : option pystr) :
  serializers.country_field data = serializers.Skipped →
  data = None ∨ data = Some [].
Proof.
  unfold serializers.country_field, serializers.CharField,
    serializers.validate_country.
  destruct data as [raw|]; [| by left]. cbn [negb andb].
  rewrite andb_true_r.
  destruct (strip raw) as [| c r] eqn:Hstrip; cbn [truthy andb];
    repeat case_bool_decide; cbn [app]; try discriminate; try done;
    intros _; right; by subst.
Qed.

Lemma country_field_Invalid (raw : pystr) :
  strip raw ≠ [] → length (strip raw) ≠ 2%nat →
  ∃ messages, serializers.country_field (Some raw) = serializers.Invalid messages.
Proof.
  unfold serializers.country_field, serializers.CharField,
    serializers.validate_country.
  intros Hblank Hlength. cbn [negb andb]. rewrite andb_true_r.
  assert (raw ≠ []) by (by intros ->).
  destruct (strip raw) as [| c r] eqn:Hstrip; [done |]. cbn [truthy andb].
  repeat case_bool_decide; cbn [app]; eauto; try done. lia.
Qed.

(** X2. What the request serializer hands to the view: a city that is the
    trimmed parameter, of 2 to 100 characters, and a country that is either
    absent (the parameter was not given or was empty) or the upper-cased
    trimmed parameter, of exactly 2 characters. *)
Theorem WeatherRequestSerializer_validated (data : gmap pystr pystr)
    (city : pystr) (country : option pystr) :
  serializers.WeatherRequestSerializer data = inr (city, country) →
  (∃ raw, data !! py "city" = Some raw ∧ city = strip raw)
  ∧ trimmed city ∧ (2 ≤ length city)%nat ∧ (length city ≤ 100)%nat
  ∧ match country with
    | None => data !! py "country" = None ∨ data !! py "country" = Some []
    | Some code =>
        ∃ raw, data !! py "country" = Some raw
               ∧ code = str_upper (strip raw) ∧ length (strip raw) = 2%nat
    end.
Proof.
  unfold serializers.WeatherRequestSerializer. cbv zeta.
  destruct (serializers.city_field _) as [| |c] eqn:Hcity; try discriminate.
  apply city_field_Valid in Hcity as (raw & Hraw & -> & Hmin & Hmax).
  assert (trimmed (strip raw)) by apply strip_trimmed.
  destruct (serializers.country_field _) as [| |k] eqn:Hcountry; try discriminate.
  - intros [= <- <-]. apply country_field_Skipped in Hcountry. eauto 10.
  - intros [= <- <-].
    apply country_field_Valid in Hcountry as (rawc & Hrawc & -> & Hlen). eauto 10.
Qed.

Lemma serializer_city_error (data : gmap pystr pystr) (messages : list pystr) :
  serializers.city_field (data !! py "city") = serializers.Invalid messages →
  ∃ errors, serializers.WeatherRequestSerializer data = inl errors
            ∧ is_Some (errors !! py "city").
Proof.
  intros Hcity. unfold serializers.WeatherRequestSerializer. cbv zeta.
  rewrite Hcity. eexists. split; [reflexivity |].
  apply lookup_union_is_Some. left. cbn [serializers.field_errors].
  rewrite lookup_singleton_eq. eauto.
Qed.

Lemma serializer_country_error (data : gmap pystr pystr) (messages : list pystr) :
  serializers.country_field (data !! py "country") = serializers.Invalid messages →
  ∃ errors, serializers.WeatherRequestSerializer data = inl errors
            ∧ is_Some (errors !! py "country").
Proof.
  intros Hcountry. unfold serializers.WeatherRequestSerializer. cbv zeta.
  rewrite Hcountry.
  assert (is_Some (({[ py "country" := PList (PStr <$> messages) ]} : pydict)
                     !! py "country")) as Hsome
    by (rewrite lookup_singleton_eq; eauto).
  destruct (serializers.city_field _) as [| |c];
    (eexists; split; [reflexivity |]);
    apply lookup_union_is_Some; by right.
Qed.

(** ** The lookup view on invalid parameters *)

(** X3. When [city] is missing, or has fewer than 2 or more than 100
    characters once trimmed (an empty or white-space city has none), the
    lookup view answers 400 with an error for [city] among the details, and
    leaves the environment as it was: the cache is not read, no request is
    sent to the provider and no job is enqueued. *)
Theorem get_weather_invalid_city_is_400 (request : views.Request) (w : World) :
  match views.GET request !! py "city" with
  | None => True
  | Some raw => (length (strip raw) < 2)%nat ∨ (100 < length (strip raw))%nat
  end →
  ∃ errors,
    views.get_weather request w = (Return (invalid_parameters errors), w)
    ∧ is_Some (errors !! py "city").
Proof.
  intros Hcity. apply city_field_Invalid in Hcity as [messages Hcity].
  apply serializer_city_error in Hcity as (errors & Hinvalid & Herror).
  exists errors. split; [| done].
  exact (view_get_weather_invalid request w errors Hinvalid).
Qed.

(** X4. When [country] is given, is not blank and has, once trimmed, a
    number of characters other than 2, the lookup view answers 400 with an
    error for [country] among the details, whatever the city, and leaves
    the environment as it was. *)
Theorem get_weather_invalid_country_is_400 (request : views.Request) (w : World)
    (raw : pystr) :
  views.GET request !! py "country" = Some raw →
  strip raw ≠ [] →
  length (strip raw) ≠ 2%nat →
  ∃ errors,
    views.get_weather request w = (Return (invalid_parameters errors), w)
    ∧ is_Some (errors !! py "country").
Proof.
  intros Hraw Hblank Hlength.
  destruct (country_field_Invalid raw Hblank Hlength) as [messages Hcountry].
  rewrite <- Hraw in Hcountry.
  apply serializer_country_error in Hcountry as (errors & Hinvalid & Herror).
  exists errors. split; [| done].
  exact (view_get_weather_invalid request w errors Hinvalid).
Qed.

(** ** The client address *)

Lemma split_comma_head_spec (s : pystr) :
  (44%N ∉ split_comma_head s)
  ∧ (s = split_comma_head s ∨ ∃ rest, s = split_comma_head s ++ 44%N :: rest).
Proof.
  induction s as [| c r [Hnot Hsplit]]; [split; [apply not_elem_of_nil | by left] |].
  cbn [split_comma_head]. destruct (N.eqb_spec c 44) as [-> | Hc].
  - split; [apply not_elem_of_nil | right; by exists r].
  - split; [rewrite not_elem_of_cons; by split |].
    destruct Hsplit as [Heq | [rest Heq]]; [left | right; exists rest];
      cbn; by rewrite <- Heq.
Qed.

(** X5. [get_client_ip]: with a non-empty [X-Forwarded-For] header the
    address is the text of the header before its first comma (the whole
    header when it has none), as it stands; otherwise it is [REMOTE_ADDR],
    absent when that is not set. *)
Theorem get_client_ip_first_forwarded (request : views.Request) :
  let header := views.META request !! py "HTTP_X_FORWARDED_FOR" in
  (∀ forwarded, header = Some forwarded → forwarded ≠ [] →
     ∃ ip, views.get_client_ip request = Some ip
           ∧ (44%N ∉ ip)
           ∧ (forwarded = ip ∨ ∃ rest, forwarded = ip ++ py "," ++ rest))
  ∧ ((header = None ∨ header = Some []) →
     views.get_client_ip request = views.META request !! py "REMOTE_ADDR").
Proof.
  cbv zeta. unfold views.get_client_ip. cbv zeta. split.
  - intros forwarded -> Hne. destruct forwarded as [| c r]; [done |].
    cbn [truthy default from_option].
    eexists. split; [reflexivity |]. apply split_comma_head_spec.
  - by intros [-> | ->].
Qed.

End more_facts.

Section more_service_facts.
Context `{Externals} `{Renderers}.

(** ** The parser *)

Lemma lift_bind_raises {A B} (P : exn → Prop) (r : result A) (f : A → M B) :
  (∀ e, r = Raise e → P e) →
  (∀ a w e w', f a w = (Raise e, w') → P e) →
  ∀ w e w', (lift r ≫= f) w = (Raise e, w') → P e.
Proof.
  intros Hr Hf w e w'. rewrite bind_run. unfold lift.
  destruct r as [a|e0]; [apply Hf |]. intros [= <- _]. by apply Hr.
Qed.

Lemma getitem_raises (v : pyval) (k : pystr) (e : exn) :
  getitem v k = Raise e → e = TypeError ∨ e = KeyError (repr_key k).
Proof.
  unfold getitem. destruct v as [| | | | |l|d]; try (intros [= <-]; by left).
  destruct (d !! k); [discriminate |]. intros [= <-]. by right.
Qed.

Lemma getitem0_raises (v : pyval) (e : exn) :
  getitem0 v = Raise e →
  e = TypeError ∨ e = IndexError ∨ e = KeyError (py "0").
Proof.
  unfold getitem0.
  destruct v as [| | | |[|c r]|[|x l]|d]; try discriminate; intros [= <-]; auto.
Qed.

Lemma get_default_raises (v : pyval) (k : pystr) (dflt : pyval) (e : exn) :
  get_default v k dflt = Raise e → e = AttributeError.
Proof. unfold get_default. destruct v; try discriminate; by intros [= <-]. Qed.

(** Reading [v[k1][k2]], [v[k][0][k2]] or [v[k].get(k2, 0)] with keys among
    those the parser reads ends in a [read_error] when it raises. *)
Ltac read_error_steps :=
  let Heq := fresh "Heq" in
  intros ?; cbv beta;
  unfold mbind, result_mbind, result_bind;
  repeat match goal with
    | |- context [match ?r with Return _ => _ | Raise _ => _ end] =>
        destruct r eqn:?
    end;
  intros Heq; try (injection Heq as <-);
  repeat match goal with
    | Hr : getitem _ _ = Raise _ |- _ => apply getitem_raises in Hr as [-> | ->]
    | Hr : getitem0 _ = Raise _ |- _ => apply getitem0_raises in Hr as [-> | [-> | ->]]
    | Hr : get_default _ _ _ = Raise _ |- _ => apply get_default_raises in Hr as ->
    end;
  by vm_compute.

Lemma parse_body_raises (data : pyval) (w w' : World) (e : exn) :
  (v_city ← lift (getitem data (py "name"));
   v_country ← lift (sys ← getitem data (py "sys"); getitem sys (py "country"));
   v_temperature ← lift (main ← getitem data (py "main"); getitem main (py "temp"));
   v_feels_like ←
     lift (main ← getitem data (py "main"); getitem main (py "feels_like"));
   v_humidity ←
     lift (main ← getitem data (py "main"); getitem main (py "humidity"));
   v_pressure ←
     lift (main ← getitem data (py "main"); getitem main (py "pressure"));
   v_description ←
     lift (weather ← getitem data (py "weather");
           first ← getitem0 weather;
           getitem first (py "description"));
   v_icon ←
     lift (weather ← getitem data (py "weather");
           first ← getitem0 weather;
           getitem first (py "icon"));
   v_wind_speed ← lift (wind ← getitem data (py "wind"); getitem wind (py "speed"));
   v_wind_direction ←
     lift (wind ← getitem data (py "wind"); get_default wind (py "deg") (PInt 0));
   v_visibility ← lift (get_default data (py "visibility") (PInt 0));
   now ← gets clock;
   mret (list_to_map [
     (py "city", v_city);
     (py "country", v_country);
     (py "temperature", v_temperature);
     (py "feels_like", v_feels_like);
     (py "humidity", v_humidity);
     (py "pressure", v_pressure);
     (py "description", v_description);
     (py "icon", v_icon);
     (py "wind_speed", v_wind_speed);
     (py "wind_direction", v_wind_direction);
     (py "visibility", v_visibility);
     (py "timestamp", PStr (isoformat now))] : pydict)) w = (Raise e, w') →
  read_error e = true.
Proof.
  revert w e w'.
  do 11 (apply (lift_bind_raises (λ e, read_error e = true));
         [read_error_steps | intros ?]).
  intros w e w'. discriminate.
Qed.

(** X10. Whatever the payload, the parser raises no [KeyError]: when it
    fails, it is with the [ValueError] whose message is
    [Dados da API incompletos:] followed by one of the keys it reads, or
    with [TypeError], [IndexError] or [AttributeError] for a value of the
    wrong shape; and the environment is left as it was. *)
Theorem parse_weather_data_errors (data : pyval) (w w' : World) (e : exn) :
  services._parse_weather_data data w = (Raise e, w') →
  parse_error e ∧ w' = w.
Proof.
  intros Hrun. split.
  - unfold services._parse_weather_data, try_except in Hrun.
    match type of Hrun with
    | match ?body w with _ => _ end = _ => destruct (body w) as [[record|e0] w0] eqn:Hbody
    end; [discriminate |].
    apply parse_body_raises in Hbody.
    destruct e0; try discriminate; injection Hrun as <- _; try done.
    cbn [read_error] in Hbody. apply bool_decide_eq_true in Hbody.
    cbn [parse_error]. eauto.
  - pose proof (readonly_parse_weather_data data w) as Hro.
    by rewrite Hrun in Hro.
Qed.

Lemma parse_weather_data_Return_fields (data : pyval) (w w' : World)
    (record : pydict) :
  services._parse_weather_data data w = (Return record, w') →
  dom record = record_fields
  ∧ record !! py "cached" = None
  ∧ record !! py "uv_index" = None.
Proof.
  unfold services._parse_weather_data. intros Hrun.
  apply try_except_Return_inv in Hrun as [Hrun | (e & w1 & _ & Hh)];
    [| by destruct e].
  repeat (apply bind_Return_inv in Hrun as (? & ? & _ & Hrun)).
  injection Hrun as <- _.
  split; [vm_compute; reflexivity |]. split; vm_compute; reflexivity.
Qed.

(** X11. A record the parser returns has exactly its twelve fields: among
    them neither [cached], which the lookup adds, nor a UV index. *)
Theorem parse_weather_data_record_fields (data : pyval) (w w' : World)
    (record : pydict) :
  services._parse_weather_data data w = (Return record, w') →
  dom record = record_fields
  ∧ record !! py "cached" = None
  ∧ record !! py "uv_index" = None.
Proof. apply parse_weather_data_Return_fields. Qed.

End more_service_facts.

Section more_lookup_facts.
Context `{Externals} `{Renderers}.

#[local] Hint Resolve readonly_raise_for_status readonly_parse_weather_data
  : readonly.

(** ** The provider client *)

Lemma fetch_from_api_with_key (self : services.WeatherService) (city : pystr)
    (country : option pystr) (w : World) :
  truthy (services.api_key self) = true →
  (services._fetch_from_api self city country w).2
  = set_sent (sent w ++ [services.params self city country]) w.
Proof.
  intros Hkey. unfold services._fetch_from_api. rewrite Hkey. cbn [negb]. cbv zeta.
  set (w' := set_sent _ w).
  unfold try_except at 1. rewrite bind_run. unfold requests_get. fold w'.
  destruct (network w _ _) as [response|e].
  - pose proof (readonly_after_request city response w') as Hro.
    unfold try_except at 1 in Hro. exact Hro.
  - by destruct e.
Qed.

(** X9. With a credential the provider client sends exactly one request,
    whatever its outcome: for [city] alone or for [city,country], with the
    credential, metric units and the language [pt_br]. Without a credential
    it sends none and raises the configuration error. *)
Theorem fetch_from_api_sends_one_request (self : services.WeatherService)
    (city : pystr) (country : option pystr) (w : World) :
  (truthy (services.api_key self) = true →
   ∃ key, services.api_key self = Some key
     ∧ sent (services._fetch_from_api self city country w).2
       = sent w ++ [{| q := if truthy country
                            then city ++ py "," ++ default [] country else city;
                       appid := key;
                       units := py "metric";
                       lang := py "pt_br" |}])
  ∧ (truthy (services.api_key self) = false →
     services._fetch_from_api self city country w
     = (Raise (ValueError (py "API key do OpenWeatherMap não configurada")), w)).
Proof.
  split.
  - intros Hkey. rewrite fetch_from_api_with_key by done.
    destruct (services.api_key self) as [key|] eqn:Hself; [| done].
    exists key. split; [done |]. unfold services.params. by rewrite Hself.
  - intros Hkey. unfold services._fetch_from_api. by rewrite Hkey.
Qed.

(** X8. With a credential, every failure of the request is reported as a
    [ValueError], the domain error of the lookup: an exception of
    [requests] (timeout, connection error or any other), a status from 400
    to 599, or a body that is not JSON. *)
Theorem fetch_from_api_request_failure_is_ValueError
    (self : services.WeatherService) (city : pystr) (country : option pystr)
    (w : World) :
  truthy (services.api_key self) = true →
  request_failure
    (network w (services.base_url self) (services.params self city country)) →
  ∃ msg, (services._fetch_from_api self city country w).1 = Raise (ValueError msg).
Proof.
  intros Hkey. unfold services._fetch_from_api. rewrite Hkey. cbn [negb]. cbv zeta.
  unfold try_except. rewrite bind_run. unfold requests_get.
  destruct (network w _ _) as [response|e]; cbn [request_failure].
  - intros Hfailure. repeat case_bool_decide; [by eauto | by eauto |].
    rewrite bind_run. unfold raise_for_status.
    case_bool_decide as Hstatus; [by eauto |].
    destruct Hfailure as [? | [msg Hjson]]; [done |].
    cbn [mret M_ret]. rewrite bind_run. unfold lift. rewrite Hjson. by eauto.
  - destruct e; try done; by eauto.
Qed.

(** ** Cache-aside lookups *)

(** What a lookup that misses the cache does when its fetch succeeds. *)
Lemma get_weather_fresh_run (self : services.WeatherService) (city : pystr)
    (country ip_address user_agent : option pystr) (w w1 : World) (record : pydict) :
  (cache_get (services._make_cache_key city country) w).1 = Return None →
  services._fetch_from_api self city country w = (Return record, w1) →
  ∃ w2,
    services.get_weather self city country ip_address user_agent w
    = (Return (<[py "cached" := PBool false]> record), w2)
    ∧ record !! py "cached" = None
    ∧ cache w2
      = <[services._make_cache_key city country
          := (record, clock w + services.cache_timeout self)]> (cache w)
    ∧ broker w2
      = (if truthy ip_address
         then broker w ++ [save_weather_query_async_job
                             city country record ip_address user_agent]
         else broker w)
    ∧ sent w2 = sent w ++ [services.params self city country]
    ∧ table w2 = table w.
Proof.
  intros Hmiss Hfetch.
  assert (truthy (services.api_key self) = true) as Hkey.
  { destruct (truthy (services.api_key self)) eqn:Hkey; [done |].
    unfold services._fetch_from_api in Hfetch. by rewrite Hkey in Hfetch. }
  pose proof (fetch_from_api_with_key self city country w Hkey) as Hw1.
  rewrite Hfetch in Hw1. cbn [snd] in Hw1. subst w1.
  assert (record !! py "cached" = None) as Hflag.
  { unfold services._fetch_from_api in Hfetch. rewrite Hkey in Hfetch.
    cbn [negb] in Hfetch. cbv zeta in Hfetch.
    apply try_except_Return_inv in Hfetch as [Hrun | (e & w2 & _ & Hh)];
      [| by destruct e].
    apply bind_Return_inv in Hrun as (response & w2 & _ & Hrun).
    repeat case_bool_decide; try discriminate.
    apply bind_Return_inv in Hrun as (? & ? & _ & Hrun).
    apply bind_Return_inv in Hrun as (data & ? & _ & Hrun).
    apply parse_weather_data_Return_fields in Hrun. apply Hrun. }
  rewrite get_weather_miss by done. rewrite Hfetch. cbv zeta.
  eexists. split; [reflexivity |]. split; [done |].
  by destruct (truthy ip_address).
Qed.

(** X6. A lookup that misses the cache and whose fetch succeeds stores the
    fetched record, without a [cached] field, under its key, to expire
    [cache_timeout] after the clock reading; it enqueues the persistence
    job, with the same record, exactly when a non-empty client address was
    given; it has sent one request; it leaves the history table as it was;
    and it returns the record with [cached] false. *)
Theorem get_weather_fresh_effects (self : services.WeatherService) (city : pystr)
    (country ip_address user_agent : option pystr) (w w1 : World) (record : pydict) :
  (cache_get (services._make_cache_key city country) w).1 = Return None →
  services._fetch_from_api self city country w = (Return record, w1) →
  ∃ w2,
    services.get_weather self city country ip_address user_agent w
    = (Return (<[py "cached" := PBool false]> record), w2)
    ∧ record !! py "cached" = None
    ∧ cache w2
      = <[services._make_cache_key city country
          := (record, clock w + services.cache_timeout self)]> (cache w)
    ∧ broker w2
      = (if truthy ip_address
         then broker w ++ [save_weather_query_async_job
                             city country record ip_address user_agent]
         else broker w)
    ∧ sent w2 = sent w ++ [services.params self city country]
    ∧ table w2 = table w.
Proof. apply get_weather_fresh_run. Qed.

(** X7. The entry of a fresh lookup is served no longer once
    [cache_timeout] has elapsed: a lookup of the same city and country at
    that time or later misses the cache and sends a new request to the
    provider. *)
Theorem get_weather_expired_is_refetched (self : services.WeatherService)
    (city : pystr) (country ip_address user_agent : option pystr) (w w1 : World)
    (record : pydict) (later : Z) :
  (cache_get (services._make_cache_key city country) w).1 = Return None →
  services._fetch_from_api self city country w = (Return record, w1) →
  clock w + services.cache_timeout self ≤ later →
  let w2 := (services.get_weather self city country ip_address user_agent w).2 in
  (cache_get (services._make_cache_key city country) (set_clock later w2)).1
  = Return None
  ∧ ∀ ip_address' user_agent',
      sent (services.get_weather self city country ip_address' user_agent'
              (set_clock later w2)).2
      = sent w2 ++ [services.params self city country].
Proof.
  intros Hmiss Hfetch Hlater. cbv zeta.
  destruct (get_weather_fresh_run self city country ip_address user_agent
              w w1 record Hmiss Hfetch) as (w2 & Hrun & _ & Hcache & _).
  rewrite Hrun. cbn [snd].
  assert (truthy (services.api_key self) = true) as Hkey.
  { destruct (truthy (services.api_key self)) eqn:Hkey; [done |].
    unfold services._fetch_from_api in Hfetch. by rewrite Hkey in Hfetch. }
  assert ((cache_get (services._make_cache_key city country)
             (set_clock later w2)).1 = Return None) as Hexpired.
  { unfold cache_get, gets. cbn [fst set_clock cache clock].
    rewrite Hcache, lookup_insert_eq. by rewrite bool_decide_eq_false_2 by lia. }
  split; [done |]. intros ip_address' user_agent'.
  rewrite get_weather_miss by done.
  pose proof (fetch_from_api_with_key self city country (set_clock later w2) Hkey)
    as Hsent.
  destruct (services._fetch_from_api self city country (set_clock later w2))
    as [[record'|e] w3]; cbn [snd] in *; subst w3; [| done].
  by destruct (truthy ip_address').
Qed.

(** What a lookup may change, whatever its outcome. *)
Lemma get_weather_world (self : services.WeatherService) (city : pystr)
    (country ip_address user_agent : option pystr) (w : World) :
  let w' := (services.get_weather self city country ip_address user_agent w).2 in
  table w' = table w
  ∧ clock w' = clock w
  ∧ (∀ key, key ≠ services._make_cache_key city country →
       cache w' !! key = cache w !! key)
  ∧ (sent w' = sent w ∨ ∃ request, sent w' = sent w ++ [request])
  ∧ (broker w' = broker w ∨ ∃ job, broker w' = broker w ++ [job]).
Proof.
  cbv zeta. unfold services.get_weather. cbv zeta.
  rewrite bind_run, cache_get_run.
  set (miss := services._fetch_from_api self city country ≫= _).
  assert (table (miss w).2 = table w
          ∧ clock (miss w).2 = clock w
          ∧ (∀ key, key ≠ services._make_cache_key city country →
               cache (miss w).2 !! key = cache w !! key)
          ∧ (sent (miss w).2 = sent w
             ∨ ∃ request, sent (miss w).2 = sent w ++ [request])
          ∧ (broker (miss w).2 = broker w
             ∨ ∃ job, broker (miss w).2 = broker w ++ [job])) as Hmiss.
  { subst miss. rewrite bind_run.
    pose proof (fetch_from_api_effect self city country w) as Heffect.
    cbv zeta in Heffect.
    destruct (services._fetch_from_api self city country w)
      as [[weather_data|e] w1]; cbn [snd] in Heffect.
    - rewrite bind_run. cbn [cache_set modify]. rewrite bind_run.
      destruct Heffect as [-> | ->]; destruct (truthy ip_address);
        cbn [delay modify mret M_ret mbind M_bind snd table clock cache sent broker
             set_cache set_sent set_broker];
        (repeat split; eauto; intros key Hkey; by rewrite lookup_insert_ne).
    - cbn [snd]. destruct Heffect as [-> | ->];
        cbn [table clock cache sent broker set_sent]; repeat split; eauto. }
  destruct (cache_get _ w).1 as [[hit|]|e]; cbn [snd].
  - case_bool_decide; [| done]. cbn [mret M_ret snd]. repeat split; eauto.
  - done.
  - repeat split; eauto.
Qed.

(** X16. The footprint of a lookup: whatever its outcome it leaves the
    history table and the clock as they were, changes no cache entry other
    than the one of its own key, sends at most one request and enqueues at
    most one job. *)
Theorem get_weather_footprint (self : services.WeatherService) (city : pystr)
    (country ip_address user_agent : option pystr) (w : World) :
  let w' := (services.get_weather self city country ip_address user_agent w).2 in
  table w' = table w
  ∧ clock w' = clock w
  ∧ (∀ key, key ≠ services._make_cache_key city country →
       cache w' !! key = cache w !! key)
  ∧ (sent w' = sent w ∨ ∃ request, sent w' = sent w ++ [request])
  ∧ (broker w' = broker w ∨ ∃ job, broker w' = broker w ++ [job]).
Proof. apply get_weather_world. Qed.

(** ** The history of lookups *)

(** X12. [get_weather_history] with a limit that is not negative (10 when
    none is given) returns the newest rows of the table, newest first:
    as many as the limit when the table has that many, all of them
    otherwise; the environment is left as it was. *)
Theorem get_weather_history_page (self : services.WeatherService)
    (limit : option Z) (w : World) :
  0 ≤ default 10 limit →
  ∃ entries,
    services.get_weather_history self limit w = (Return entries, w)
    ∧ newest_page (Z.to_nat (default 10 limit)) (models.rows (table w)) entries
    ∧ length entries
      = Nat.min (Z.to_nat (default 10 limit)) (length (models.rows (table w))).
Proof.
  intros Hlimit.
  destruct (order_by_query_timestamp (table w)) as (ordered & Horder & Hperm & Hsorted).
  exists (take (Z.to_nat (default 10 limit)) ordered). split; [| split].
  - unfold services.get_weather_history. cbv zeta.
    rewrite bind_run. unfold query. rewrite Horder.
    unfold lift, models.slice. by rewrite bool_decide_eq_true_2.
  - by exists ordered.
  - rewrite length_take. by rewrite (Permutation_length Hperm).
Qed.

(** X15. The history view answers every request, with status 200, 400 or
    500, and leaves the environment as it was. *)
Theorem get_history_answers_and_changes_nothing (request : views.Request)
    (w : World) :
  ∃ response,
    views.get_history request w = (Return response, w)
    ∧ (views.status response = 200 ∨ views.status response = 400
       ∨ views.status response = 500).
Proof.
  assert (∀ limit : option Z, 0 ≤ default 10 limit →
    ∃ response,
      try_except
        (weather_svc ← services.__init__;
         history ← services.get_weather_history weather_svc limit;
         mret {| views.data := PList (WeatherQuerySerializer_data <$> history);
                 views.status := views.HTTP_200_OK |})
        (λ _, mret internal_error) w = (Return response, w)
      ∧ (views.status response = 200 ∨ views.status response = 400
         ∨ views.status response = 500)) as Hpage.
  { intros limit Hlimit.
    destruct (history_page_run limit w Hlimit) as (entries & Hrun & _).
    eexists. unfold try_except. rewrite Hrun. split; [reflexivity | by left]. }
  unfold views.get_history. cbv zeta.
  destruct (truthy _); [| by apply (Hpage None)].
  destruct (py_int _) as [limit|e].
  - case_bool_decide; [eexists; split; [reflexivity | by right; left] |].
    case_bool_decide; [apply (Hpage (Some 100)) | apply (Hpage (Some limit))];
      cbn; lia.
  - destruct e; eexists; (split; [reflexivity |]); cbn; auto.
Qed.

(** X17. The lookup view answers every request, with status 200, 400 or
    500: no exception leaves it. It never writes the history table. *)
Theorem get_weather_view_answers (request : views.Request) (w : World) :
  ∃ response w',
    views.get_weather request w = (Return response, w')
    ∧ (views.status response = 200 ∨ views.status response = 400
       ∨ views.status response = 500)
    ∧ table w' = table w.
Proof.
  destruct (serializers.WeatherRequestSerializer (views.GET request))
    as [errors|[city country]] eqn:Hs.
  - rewrite (view_get_weather_invalid request w errors Hs).
    do 2 eexists. split; [reflexivity |]. split; [by right; left | done].
  - rewrite (view_get_weather_valid request w city country Hs _ (f_equal fst (init_run w))).
    match goal with
    | |- context [services.get_weather ?self ?c ?k ?ip ?ua w] =>
        pose proof (get_weather_world self c k ip ua w) as Hfoot;
        destruct (services.get_weather self c k ip ua w) as [[record|e] w1]
    end; cbv zeta in Hfoot; cbn [snd] in Hfoot; destruct Hfoot as (Htable & _).
    + destruct (WeatherResponseSerializer_data record) as [rendered|e];
        [| destruct e]; do 2 eexists; (split; [reflexivity |]); cbn; auto.
    + destruct e; do 2 eexists; (split; [reflexivity |]); cbn; auto.
Qed.

(** X18. What a fresh lookup through the view records: when the
    parameters are valid, the cache is missed and the fetch succeeds, the
    job enqueued for a client with an address carries the validated city
    and country (trimmed, the country in upper case), the fetched record,
    the address that [get_client_ip] found and the user agent, empty when
    the header is absent; without an address nothing is enqueued. This
    holds whatever the rendering of the answer then does. *)
Theorem get_weather_view_enqueues_validated (request : views.Request) (w w1 : World)
    (city : pystr) (country : option pystr) (self : services.WeatherService)
    (record : pydict) :
  serializers.WeatherRequestSerializer (views.GET request) = inr (city, country) →
  (services.__init__ w).1 = Return self →
  (cache_get (services._make_cache_key city country) w).1 = Return None →
  services._fetch_from_api self city country w = (Return record, w1) →
  broker (views.get_weather request w).2
  = if truthy (views.get_client_ip request)
    then broker w
         ++ [save_weather_query_async_job city country record
               (views.get_client_ip request)
               (Some (default [] (views.META request !! py "HTTP_USER_AGENT")))]
    else broker w.
Proof.
  intros Hvalid Hself Hmiss Hfetch.
  rewrite (view_get_weather_valid request w city country Hvalid self Hself).
  destruct (get_weather_fresh_run self city country (views.get_client_ip request)
              (Some (default [] (views.META request !! py "HTTP_USER_AGENT")))
              w w1 record Hmiss Hfetch) as (w2 & Hrun & _ & _ & Hbroker & _).
  rewrite Hrun. by destruct (WeatherResponseSerializer_data _).
Qed.

End more_lookup_facts.

Section more_model_facts.
Context `{Externals}.

(** ** Rows of the history table *)

Ltac create_steps :=
  repeat match goal with
    | |- ∃ e, (?m ≫= _) = Raise e =>
        destruct m as [?|?];
        cbn [mbind result_mbind result_bind models.stored models.not_null];
        [| eauto]
    end;
  eauto.

(** X14. A row is created only when [temperature], [feels_like],
    [humidity] and [pressure] are all given: they are declared without
    default and without [null=True], and [objects.create] raises when one
    of them is missing. *)
Theorem create_requires_numeric_columns (kwargs : pydict) (now : Z)
    (t : models.Table) (name : pystr) :
  name ∈ [py "temperature"; py "feels_like"; py "humidity"; py "pressure"] →
  kwargs !! name = None →
  ∃ e, models.create kwargs now t = Raise e.
Proof.
  intros Hname Hnone. unfold models.create.
  destruct (bool_decide _); [| eauto].
  destruct (bool_decide _); [| eauto].
  rewrite !elem_of_cons, elem_of_nil in Hname.
  destruct Hname as [-> | [-> | [-> | [-> | []]]]].
  - assert (models.field_value kwargs (py "temperature") models.FloatField_prep None
            = Return None) as Hfield
      by (unfold models.field_value; by rewrite Hnone).
    rewrite Hfield. create_steps.
  - assert (models.field_value kwargs (py "feels_like") models.FloatField_prep None
            = Return None) as Hfield
      by (unfold models.field_value; by rewrite Hnone).
    rewrite Hfield. create_steps.
  - assert (models.field_value kwargs (py "humidity") models.IntegerField_prep None
            = Return None) as Hfield
      by (unfold models.field_value; by rewrite Hnone).
    rewrite Hfield. create_steps.
  - assert (models.field_value kwargs (py "pressure") models.IntegerField_prep None
            = Return None) as Hfield
      by (unfold models.field_value; by rewrite Hnone).
    rewrite Hfield. create_steps.
Qed.

(** X13. Created from its seven required columns alone, with values that
    the columns store as they are given (a string not longer than the
    column, an integer not wider than it) and with the next [id] of the
    table unused, a row takes the declared defaults for the other columns:
    an empty icon and user agent, no address, and 0 for wind speed, wind
    direction, visibility and UV index; its [id] is the next one of the
    table, its timestamp the clock reading, and it is appended to the
    table. *)
Theorem create_fills_defaults (city country description : pystr)
    (temperature feels_like : Q) (humidity pressure : Z) (now : Z)
    (t : models.Table) :
  (∀ q, py_float (PFloat q) = Return q) →
  (∀ n, py_int (PInt n) = Return n) →
  db_varchar 100 city = Return city →
  db_varchar 2 country = Return country →
  db_integer humidity = Return humidity →
  db_integer pressure = Return pressure →
  db_varchar 200 description = Return description →
  stores_defaults →
  models.next_id t ∉ models.id <$> models.rows t →
  let query := {|
    models.id := models.next_id t;
    models.city := city;
    models.country := country;
    models.temperature := temperature;
    models.feels_like := feels_like;
    models.humidity := humidity;
    models.pressure := pressure;
    models.description := description;
    models.icon := [];
    models.wind_speed := 0%Q;
    models.wind_direction := 0;
    models.visibility := 0;
    models.uv_index := 0%Q;
    models.query_timestamp := now;
    models.ip_address := None;
    models.user_agent := [];
  |} in
  models.create
    (list_to_map [
       (py "city", PStr city);
       (py "country", PStr country);
       (py "temperature", PFloat temperature);
       (py "feels_like", PFloat feels_like);
       (py "humidity", PInt humidity);
       (py "pressure", PInt pressure);
       (py "description", PStr description)])
    now t
  = Return (query, {| models.rows := models.rows t ++ [query];
                      models.next_id := models.next_id t + 1 |}).
Proof.
  intros Hfloat Hint Hcity Hcountry Hhumidity Hpressure Hdescription
    (Hicon & Huser_agent & Hzero) Hfresh.
  cbv zeta. unfold models.create.
  repeat match goal with
    | |- (if bool_decide ?P then _ else _) = _ =>
        replace (bool_decide P) with true by (vm_compute; reflexivity)
    end.
  unfold models.field_value, models.explicit_id.
  repeat match goal with
    | |- context [?m !! ?k] =>
        let v := eval vm_compute in (m !! k) in
        change (m !! k) with v
    end.
  cbn [default from_option id
       models.CharField_prep models.FloatField_prep models.IntegerField_prep
       mbind mret result_mbind result_ret result_bind models.stored].
  rewrite !Hfloat, !Hint.
  cbn [mbind mret result_mbind result_ret result_bind models.stored].
  rewrite Hcity, Hcountry, Hhumidity, Hpressure, Hdescription, Hicon,
    !Hzero, Huser_agent.
  cbn [default from_option id
       mbind mret result_mbind result_ret result_bind models.stored
       models.not_null].
  unfold models.unique_id. by rewrite bool_decide_false.
Qed.

End more_model_facts.

(** ** The further statements at concrete inputs *)

Section more_instances.
#[local] Existing Instance Latin1.externals.
#[local] Existing Instance field_renderers.

Lemma validate_city_trims_example :
  serializers.validate_city (py "  São Paulo ") = serializers.Valid (py "São Paulo")
  ∧ ∃ messages, serializers.validate_city (py " a ") = serializers.Invalid messages.
Proof.
  destruct (validate_city_trims (py "  São Paulo ")) as (_ & _ & Hvalid).
  destruct (validate_city_trims (py " a ")) as (_ & Hshort & _).
  split.
  - rewrite Hvalid; [vm_compute; reflexivity |].
    replace (length (strip (py "  São Paulo "))) with 9%nat by (vm_compute; reflexivity).
    lia.
  - apply Hshort.
    replace (length (strip (py " a "))) with 1%nat by (vm_compute; reflexivity).
    lia.
Defined.

Lemma WeatherRequestSerializer_validated_example :
  (∃ raw, views.GET examples.lookup_request !! py "city" = Some raw
          ∧ py "São Paulo" = strip raw)
  ∧ trimmed (py "São Paulo") ∧ (2 ≤ length (py "São Paulo"))%nat
  ∧ (length (py "São Paulo") ≤ 100)%nat
  ∧ ∃ raw, views.GET examples.lookup_request !! py "country" = Some raw
           ∧ py "BR" = str_upper (strip raw) ∧ length (strip raw) = 2%nat.
Proof.
  apply (WeatherRequestSerializer_validated (views.GET examples.lookup_request)
           (py "São Paulo") (Some (py "BR"))).
  vm_compute. reflexivity.
Defined.

Lemma get_weather_invalid_city_is_400_example :
  ∃ errors,
    views.get_weather more_examples.blank_city_request more_examples.cold_world
    = (Return (invalid_parameters errors), more_examples.cold_world)
    ∧ is_Some (errors !! py "city").
Proof.
  apply get_weather_invalid_city_is_400.
  replace (views.GET more_examples.blank_city_request !! py "city")
    with (Some (py "   ")) by (vm_compute; reflexivity).
  left. replace (length (strip (py "   "))) with 0%nat by (vm_compute; reflexivity).
  lia.
Defined.

Lemma get_weather_invalid_country_is_400_example :
  ∃ errors,
    views.get_weather more_examples.long_country_request more_examples.cold_world
    = (Return (invalid_parameters errors), more_examples.cold_world)
    ∧ is_Some (errors !! py "country").
Proof.
  apply (get_weather_invalid_country_is_400 _ _ (py "INVALID"));
    [vm_compute; reflexivity | vm_compute; discriminate | vm_compute; lia].
Defined.

Lemma get_client_ip_first_forwarded_example :
  (∃ ip, views.get_client_ip more_examples.forwarded_request = Some ip
         ∧ (44%N ∉ ip)
         ∧ (py "203.0.113.7, 10.0.0.2" = ip
            ∨ ∃ rest, py "203.0.113.7, 10.0.0.2" = ip ++ py "," ++ rest))
  ∧ views.get_client_ip examples.lookup_request = Some (py "10.0.0.1").
Proof.
  destruct (get_client_ip_first_forwarded more_examples.forwarded_request)
    as [Hforwarded _].
  destruct (get_client_ip_first_forwarded examples.lookup_request) as [_ Hdirect].
  split.
  - apply Hforwarded; [vm_compute; reflexivity | vm_compute; discriminate].
  - rewrite Hdirect; [vm_compute; reflexivity | left; vm_compute; reflexivity].
Defined.

Lemma fetch_from_api_sends_one_request_example :
  (∃ key, services.api_key examples.service = Some key
     ∧ sent (services._fetch_from_api examples.service (py "São Paulo")
               (Some (py "BR")) more_examples.cold_world).2
       = sent more_examples.cold_world
         ++ [{| q := if truthy (Some (py "BR"))
                     then py "São Paulo" ++ py "," ++ default [] (Some (py "BR"))
                     else py "São Paulo";
                appid := key;
                units := py "metric";
                lang := py "pt_br" |}])
  ∧ services._fetch_from_api
      {| services.api_key := None; services.base_url := []; services.cache_timeout := 600 |}
      (py "São Paulo") None more_examples.cold_world
    = (Raise (ValueError (py "API key do OpenWeatherMap não configurada")),
       more_examples.cold_world).
Proof.
  split.
  - apply (fetch_from_api_sends_one_request examples.service). reflexivity.
  - apply fetch_from_api_sends_one_request. reflexivity.
Defined.

Lemma fetch_from_api_request_failure_is_ValueError_example :
  ∃ msg,
    (services._fetch_from_api examples.service (py "São Paulo") (Some (py "BR"))
       (examples.world (Some (py "key")) (examples.status_only 503))).1
    = Raise (ValueError msg).
Proof.
  apply fetch_from_api_request_failure_is_ValueError; [reflexivity |].
  left. simpl. lia.
Defined.

Lemma get_weather_fresh_effects_example :
  ∃ w2,
    services.get_weather examples.service (py "São Paulo") (Some (py "BR"))
      (Some (py "10.0.0.1")) None more_examples.cold_world
    = (Return (<[py "cached" := PBool false]> examples.parsed_record), w2)
    ∧ examples.parsed_record !! py "cached" = None
    ∧ cache w2
      = <[services._make_cache_key (py "São Paulo") (Some (py "BR"))
          := (examples.parsed_record,
              clock more_examples.cold_world
              + services.cache_timeout examples.service)]>
          (cache more_examples.cold_world)
    ∧ broker w2
      = (if truthy (Some (py "10.0.0.1"))
         then broker more_examples.cold_world
              ++ [save_weather_query_async_job (py "São Paulo") (Some (py "BR"))
                    examples.parsed_record (Some (py "10.0.0.1")) None]
         else broker more_examples.cold_world)
    ∧ sent w2
      = sent more_examples.cold_world
        ++ [services.params examples.service (py "São Paulo") (Some (py "BR"))]
    ∧ table w2 = table more_examples.cold_world.
Proof.
  apply (get_weather_fresh_effects examples.service (py "São Paulo") (Some (py "BR"))
           (Some (py "10.0.0.1")) None more_examples.cold_world
           more_examples.requested_world examples.parsed_record);
    reflexivity.
Defined.

Lemma get_weather_expired_is_refetched_example :
  let w2 := (services.get_weather examples.service (py "São Paulo") (Some (py "BR"))
               (Some (py "10.0.0.1")) None more_examples.cold_world).2 in
  (cache_get (services._make_cache_key (py "São Paulo") (Some (py "BR")))
     (set_clock 1600 w2)).1 = Return None
  ∧ ∀ ip_address' user_agent',
      sent (services.get_weather examples.service (py "São Paulo") (Some (py "BR"))
              ip_address' user_agent' (set_clock 1600 w2)).2
      = sent w2
        ++ [services.params examples.service (py "São Paulo") (Some (py "BR"))].
Proof.
  apply (get_weather_expired_is_refetched examples.service (py "São Paulo")
           (Some (py "BR")) (Some (py "10.0.0.1")) None more_examples.cold_world
           more_examples.requested_world examples.parsed_record 1600);
    [reflexivity | reflexivity | simpl; lia].
Defined.

Lemma parse_weather_data_errors_example :
  parse_error (ValueError (py "Dados da API incompletos: 'description'"))
  ∧ more_examples.cold_world = more_examples.cold_world.
Proof.
  apply (parse_weather_data_errors (PDict examples.no_description_response)
           more_examples.cold_world more_examples.cold_world).
  reflexivity.
Defined.

Lemma parse_weather_data_record_fields_example :
  dom examples.parsed_record = record_fields
  ∧ examples.parsed_record !! py "cached" = None
  ∧ examples.parsed_record !! py "uv_index" = None.
Proof.
  apply (parse_weather_data_record_fields (PDict examples.mock_api_response)
           more_examples.cold_world more_examples.cold_world).
  reflexivity.
Defined.

Lemma get_weather_history_page_example :
  let w := examples.world_with_rows
             [examples.row 1 10; examples.row 2 30; examples.row 3 20] in
  ∃ entries,
    services.get_weather_history examples.service (Some 2) w = (Return entries, w)
    ∧ newest_page (Z.to_nat (default 10 (Some 2))) (models.rows (table w)) entries
    ∧ length entries
      = Nat.min (Z.to_nat (default 10 (Some 2))) (length (models.rows (table w))).
Proof.
  cbv zeta. apply get_weather_history_page. simpl. lia.
Defined.

Lemma create_fills_defaults_example :
  ∃ query,
    models.create more_examples.required_columns 1000
      {| models.rows := []; models.next_id := 1 |}
    = Return (query, {| models.rows := [query]; models.next_id := 2 |})
    ∧ models.wind_speed query = 0%Q ∧ models.visibility query = 0
    ∧ models.ip_address query = None ∧ models.query_timestamp query = 1000.
Proof.
  eexists. split.
  - apply (create_fills_defaults (py "Brasília") (py "BR") (py "Céu limpo")
             (22 # 1) (43 # 2) 70 1015 1000
             {| models.rows := []; models.next_id := 1 |}).
    + intros; reflexivity.
    + intros; reflexivity.
    + reflexivity.
    + reflexivity.
    + reflexivity.
    + reflexivity.
    + reflexivity.
    + repeat split.
    + apply not_elem_of_nil.
  - done.
Defined.

Lemma create_requires_numeric_columns_example :
  ∃ e,
    models.create (delete (py "humidity") more_examples.required_columns) 1000
      {| models.rows := []; models.next_id := 1 |} = Raise e.
Proof.
  apply (create_requires_numeric_columns _ _ _ (py "humidity"));
    [set_solver | vm_compute; reflexivity].
Defined.

Lemma get_weather_view_enqueues_validated_example :
  broker (views.get_weather examples.lookup_request more_examples.cold_world).2
  = if truthy (views.get_client_ip examples.lookup_request)
    then broker more_examples.cold_world
         ++ [save_weather_query_async_job (py "São Paulo") (Some (py "BR"))
               examples.parsed_record
               (views.get_client_ip examples.lookup_request)
               (Some (default []
                        (views.META examples.lookup_request !! py "HTTP_USER_AGENT")))]
    else broker more_examples.cold_world.
Proof.
  apply (get_weather_view_enqueues_validated examples.lookup_request
           more_examples.cold_world more_examples.requested_world
           (py "São Paulo") (Some (py "BR")) examples.service examples.parsed_record);
    [vm_compute; reflexivity | reflexivity | reflexivity | reflexivity].
Defined.

End more_instances.
